(** * Auth0 bulk user creation: a shallow embedding of the notebook's functions

    The notebook [Auth0_Bulk_User_Creation.ipynb] generates user records,
    hashes their passwords with bcrypt, and drives three endpoints of the
    Auth0 Management API.  Python strings are represented by their UTF-8
    bytes (Rocq's [string]), Python integers by [Z], exceptions by an error
    monad, the operating system's entropy and the answers of the remote
    service by explicit inputs, and prints, sleeps and HTTP requests by a
    trace of events. *)

From Stdlib Require Import ZArith List String Ascii Bool Lia.
From Stdlib Require Import DecimalString DecimalPos DecimalZ.
Import ListNotations.
Local Open Scope string_scope.
Local Open Scope Z_scope.

(** ** Python values, exceptions and built-ins *)

Module Py.

(** The exceptions the notebook's code can meet.  The notebook contains no
    [raise] statement of its own; [Raised] stands for an exception that a
    program raises explicitly, with its class name and message. *)
Inductive exn : Type :=
| StopIteration
| KeyError (key : string)
| TypeError
| ValueError
| AttributeError (attr : string)
| JSONDecodeError
| FileNotFoundError (path : string)
| Raised (cls msg : string).

Inductive result (A : Type) : Type :=
| Return (a : A)
| Raise (e : exn).
Arguments Return {A} a.
Arguments Raise {A} e.

(** Values produced by [response.json()]. *)
#[local] Unset Elimination Schemes.
Inductive Json : Type :=
| JNull
| JBool (b : bool)
| JNum (n : Z)
| JStr (s : string)
| JArr (items : list Json)
| JObj (fields : list (string * Json)).
#[local] Set Elimination Schemes.

Fixpoint assoc (key : string) (fields : list (string * Json)) : option Json :=
  match fields with
  | [] => None
  | (k, v) :: rest => if String.eqb k key then Some v else assoc key rest
  end.

(** [v[key]] for a string key. *)
Definition getitem (v : Json) (key : string) : result Json :=
  match v with
  | JObj fields =>
      match assoc key fields with
      | Some x => Return x
      | None => Raise (KeyError key)
      end
  | _ => Raise TypeError
  end.

(** [v == s] where [s] is a [str]: only a string equals a string. *)
Definition eq_str (v : Json) (s : string) : bool :=
  match v with
  | JStr t => String.eqb t s
  | _ => false
  end.

Fixpoint chars (s : string) : list Json :=
  match s with
  | EmptyString => []
  | String c rest => JStr (String c EmptyString) :: chars rest
  end.

(** [iter(v)]: a list yields its items, a dict its keys, a string its
    characters; the other values are not iterable. *)
Definition iter (v : Json) : result (list Json) :=
  match v with
  | JArr items => Return items
  | JObj fields => Return (map (fun kv => JStr (fst kv)) fields)
  | JStr s => Return (chars s)
  | _ => Raise TypeError
  end.

(** [str(i)] for an integer. *)
Definition str_int (i : Z) : string := NilZero.string_of_int (Z.to_int i).

Fixpoint zeros (n : nat) : string :=
  match n with
  | O => EmptyString
  | S m => String "0" (zeros m)
  end.

(** Padding with ['0'] on the left up to [width] characters; a string that
    is already as wide is left as it is. *)
Definition zero_pad (width : nat) (digits : string) : string :=
  zeros (width - String.length digits) ++ digits.

(** The format specification [02d]: decimal, width two, filled with zeros
    after the sign. *)
Definition format_02d (i : Z) : string :=
  if i <? 0 then String "-" (zero_pad 1 (str_int (- i)))
  else zero_pad 2 (str_int i).

(** [range(lo, hi)]. *)
Definition range (lo hi : Z) : list Z :=
  map (fun k => lo + Z.of_nat k) (seq 0 (Z.to_nat (hi - lo))).

(** [s.encode("utf-8")] on a value that is a [str] or [None]; strings are
    held as their UTF-8 bytes already. *)
Definition encode_utf8 (s : option string) : result string :=
  match s with
  | Some bytes => Return bytes
  | None => Raise (AttributeError "encode")
  end.

Definition decode_utf8 (bytes : string) : string := bytes.

(** [int(s)] on a string of decimal digits with an optional sign. *)
Definition parse_int (s : string) : option Z :=
  option_map Z.of_int (NilZero.int_of_string s).

End Py.
Import Py.

(** ** The bcrypt library

    [bcrypt] is an external package.  Its two functions used by the notebook
    are described by what they return: [gensalt] gives the prefix [$2b$], the
    cost on two digits, [$] and 22 characters that encode 16 bytes of
    operating-system entropy; [hashpw] gives the salt followed by the 31
    characters of the checksum for a password of at most 72 bytes, the
    empty one included, and raises [ValueError] for a longer one.
    [salt22 k] is what the [k]-th draw of entropy encodes to, and [checksum]
    is the Blowfish computation, left abstract. *)

Record Bcrypt : Type := {
  salt22 : nat -> string;
  salt22_length : forall k, String.length (salt22 k) = 22%nat;
  checksum : string -> string -> string
}.

(** ** Computations that draw entropy and may raise

    The state is the number of salts drawn so far. *)

Definition Gen (A : Type) : Type := nat -> result A * nat.

Definition ret {A} (a : A) : Gen A := fun st => (Return a, st).

Definition bind {A B} (c : Gen A) (k : A -> Gen B) : Gen B :=
  fun st =>
    match c st with
    | (Return a, st') => k a st'
    | (Raise e, st') => (Raise e, st')
    end.

Definition lift {A} (r : result A) : Gen A := fun st => (r, st).

Notation "x <- c ;; k" := (bind c (fun x => k))
  (at level 61, c at next level, right associativity).

(** A list comprehension [[f(i) for i in items]]. *)
Fixpoint list_comp {A B} (f : A -> Gen B) (items : list A) : Gen (list B) :=
  match items with
  | [] => ret []
  | i :: rest =>
      x <- f i ;;
      xs <- list_comp f rest ;;
      ret (x :: xs)
  end.

(** ** User records *)

Record UserRecord : Type := {
  email : string;
  email_verified : bool;
  password_hash : string;
  name : string;
  nickname : string;
  username : string
}.

(** bcrypt takes passwords of at most 72 bytes. *)
Definition hashable (password : string) : bool :=
  Nat.leb (String.length password) 72.

(** The plaintext that [create_user] hashes: the password given, or else
    the username. *)
Definition plaintext_for (password : option string) (uname : string) : string :=
  match password with
  | None => uname
  | Some p => p
  end.

Section Generator.

Context (lib : Bcrypt).

Definition gensalt (rounds : Z) : Gen string :=
  fun st =>
    if (4 <=? rounds) && (rounds <=? 31)
    then (Return ("$2b$" ++ format_02d rounds ++ "$" ++ salt22 lib st), S st)
    else (Raise ValueError, st).

(** The string that bcrypt computes for a password it accepts: the salt
    and then the checksum. *)
Definition bcrypt_hash (password salt : string) : string :=
  salt ++ checksum lib password salt.

(** [bcrypt.hashpw(password, salt)] *)
Definition hashpw (password salt : string) : result string :=
  if hashable password then Return (bcrypt_hash password salt)
  else Raise ValueError.

(** [hash_password(password)] *)
Definition hash_password (password : option string) : Gen string :=
  salt <- gensalt 10 ;;
  bytes <- lift (encode_utf8 password) ;;
  hashed_password <- lift (hashpw bytes salt) ;;
  ret (decode_utf8 hashed_password).

(** The f-string [f"{prefix}_{i:02d}"]. *)
Definition username_of (prefix : string) (i : Z) : string :=
  prefix ++ "_" ++ format_02d i.

(** [create_user(prefix, domain, password, i)] *)
Definition create_user (prefix domain : string) (password : option string)
    (i : Z) : Gen UserRecord :=
  let uname := username_of prefix i in
  let password := match password with None => uname | Some p => p end in
  hashed <- hash_password (Some password) ;;
  ret {| email := uname ++ "@" ++ domain;
         email_verified := true;
         password_hash := hashed;
         name := uname ++ "@" ++ domain;
         nickname := uname;
         username := uname |}.

(** [create_users(prefix, domain, N, password)] *)
Definition create_users (prefix domain : string) (N : Z)
    (password : option string) : Gen (list UserRecord) :=
  list_comp (fun i => create_user prefix domain password i) (range 1 (N + 1)).

End Generator.

(** ** The remote service: requests, responses and the trace of effects *)

Record Response : Type := {
  status_code : Z;
  text : string;
  json : result Json      (* what [response.json()] gives for this body *)
}.

(** One part of a multipart form: [(filename, content, content_type)]. *)
Record Part : Type := {
  part_filename : option string;
  part_content : string;
  part_type : option string
}.

Record Request : Type := {
  verb : string;
  url : string;
  headers : list (string * string);
  params : list (string * string);
  files : list (string * Part)
}.

Inductive event : Type :=
| Sent (request : Request)
| Printed (line : string)
| Slept (seconds : Z).

(** What the client functions hand back: a parsed JSON value or the
    [Response] object itself. *)
Inductive obj : Type :=
| OJson (v : Json)
| OResponse (r : Response).

(** How a call ends: with a result, or still waiting for an answer that the
    given script of answers does not contain. *)
Inductive run (A : Type) : Type :=
| Done (r : result A)
| Awaiting.
Arguments Done {A} r.
Arguments Awaiting {A}.

Definition Client (A : Type) : Type := (list event * run A)%type.

Definition cret {A} (a : A) : Client A := ([], Done (Return a)).

Definition cbind {A B} (c : Client A) (k : A -> Client B) : Client B :=
  match c with
  | (evs, Done (Return a)) => let (evs', r) := k a in ((evs ++ evs')%list, r)
  | (evs, Done (Raise e)) => (evs, Done (Raise e))
  | (evs, Awaiting) => (evs, Awaiting)
  end.

Definition emit (ev : event) : Client unit := ([ev], Done (Return tt)).

Definition liftr {A} (r : result A) : Client A := ([], Done r).

Notation "x <~ c ;; k" := (cbind c (fun x => k))
  (at level 61, c at next level, right associativity).
Notation "c ;;; k" := (cbind c (fun _ => k))
  (at level 61, right associativity).

(** The events of one kind in a trace. *)
Definition requests_of (evs : list event) : list Request :=
  flat_map (fun ev => match ev with Sent r => [r] | _ => [] end) evs.

Definition sleeps_of (evs : list event) : list Z :=
  flat_map (fun ev => match ev with Slept s => [s] | _ => [] end) evs.

(** [next(conn["id"] for conn in items if conn["name"] == connection_name)] *)
Fixpoint next_match (items : list Json) (connection_name : string) : result Json :=
  match items with
  | [] => Raise StopIteration
  | conn :: rest =>
      match getitem conn "name" with
      | Raise e => Raise e
      | Return n =>
          if eq_str n connection_name then getitem conn "id"
          else next_match rest connection_name
      end
  end.

Section RemoteImportClient.

(** [str(v)] for a value parsed from JSON, as an f-string and [print] use
    it: a built-in of the interpreter. *)
Variable str_json : Json -> string.

(** The files that can be opened, with their contents. *)
Variable disk : string -> option string.

Definition bearer (access_token : string) : list (string * string) :=
  [("Authorization", "Bearer " ++ access_token)].

(** [get_connection_id(domain, access_token, connection_name)], given the
    answer of the service to its request. *)
Definition get_connection_id (domain access_token connection_name : string)
    (response : Response) : Client (Json * Json) :=
  let url := "https://" ++ domain ++ "/api/v2/connections" in
  let headers := bearer access_token in
  let params := [("strategy", "auth0")] in
  emit (Sent {| verb := "GET"; url := url; headers := headers;
                params := params; files := [] |}) ;;;
  connections <~ liftr (json response) ;;
  items <~ liftr (iter connections) ;;
  found <~ liftr (next_match items connection_name) ;;
  again <~ liftr (json response) ;;
  cret (found, again).

(** [start_import_job(filename, connection_id, domain, access_token,
    external_id)], given the answer of the service to its request. *)
Definition start_import_job (filename connection_id domain access_token : string)
    (external_id : option string) (response : Response) : Client obj :=
  let url := "https://" ++ domain ++ "/api/v2/jobs/users-imports" in
  let headers := bearer access_token in
  match disk filename with
  | None => liftr (Raise (FileNotFoundError filename))
  | Some f =>
      let files :=
        [("users", {| part_filename := Some filename; part_content := f;
                      part_type := Some "application/json" |});
         ("connection_id", {| part_filename := None;
                              part_content := connection_id;
                              part_type := None |});
         ("send_completion_email", {| part_filename := None;
                                      part_content := "false";
                                      part_type := None |})] in
      let files :=
        match external_id with
        | Some ext =>
            if negb (String.eqb ext "")
            then (files ++ [("external_id", {| part_filename := None;
                                               part_content := ext;
                                               part_type := None |})])%list
            else files
        | None => files
        end in
      emit (Sent {| verb := "POST"; url := url; headers := headers;
                    params := []; files := files |}) ;;;
      if (status_code response =? 200) || (status_code response =? 202) then
        job <~ liftr (json response) ;;
        emit (Printed "Import job started successfully.") ;;;
        cret (OJson job)
      else
        emit (Printed "❌ Error during users-imports:") ;;;
        emit (Printed (str_int (status_code response) ++ " " ++ text response)) ;;;
        cret (OResponse response)
  end.

(** [obj[key]]: a [Response] object is not subscriptable. *)
Definition obj_getitem (o : obj) (key : string) : result Json :=
  match o with
  | OJson v => getitem v key
  | OResponse _ => Raise TypeError
  end.

(** The three prints after the loop of [check_job_status], and its
    [return job_status]. *)
Definition report (job_status : Json) : Client obj :=
  id <~ liftr (getitem job_status "id") ;;
  emit (Printed ("Job id: " ++ str_json id)) ;;;
  status <~ liftr (getitem job_status "status") ;;
  emit (Printed ("Job status: " ++ str_json status)) ;;;
  summary <~ liftr (getitem job_status "summary") ;;
  emit (Printed ("Job summary: " ++ str_json summary)) ;;;
  cret (OJson job_status).

(** The [while pending] loop of [check_job_status], one answer of the
    service per iteration. *)
Fixpoint poll (url : string) (headers : list (string * string))
    (inbox : list Response) : Client obj :=
  let request := {| verb := "GET"; url := url; headers := headers;
                    params := []; files := [] |} in
  match inbox with
  | [] => ([Sent request], Awaiting)
  | response :: later =>
      emit (Sent request) ;;;
      if status_code response =? 200 then
        job_status <~ liftr (json response) ;;
        status <~ liftr (getitem job_status "status") ;;
        let pending := eq_str status "pending" in
        if pending then
          emit (Printed "Waiting for job to complete... (5 seconds)") ;;;
          emit (Slept 5) ;;;
          poll url headers later
        else report job_status
      else
        emit (Printed "❌ Error during job status check:") ;;;
        emit (Printed (str_int (status_code response) ++ " " ++ text response)) ;;;
        cret (OResponse response)
  end.

(** [check_job_status(job, connection_id, domain, access_token, sleep)],
    given the answers of the service to its successive requests. *)
Definition check_job_status (job : obj) (connection_id domain access_token : string)
    (sleep : Z) (inbox : list Response) : Client obj :=
  id <~ liftr (obj_getitem job "id") ;;
  let url := "https://" ++ domain ++ "/api/v2/jobs/" ++ str_json id in
  let headers := bearer access_token in
  poll url headers inbox.

End RemoteImportClient.

(** ** Kinds of answers and of connection entries *)

Definition has_key (v : Json) (key : string) : bool :=
  match getitem v key with
  | Return _ => true
  | Raise _ => false
  end.

(** A job descriptor (an object with [id], [status] and [summary]) whose
    status satisfies [p]. *)
Definition job_with_status (p : Json -> bool) (v : Json) : bool :=
  has_key v "id" && has_key v "summary" &&
  match getitem v "status" with
  | Return status => p status
  | Raise _ => false
  end.

(** The answer is 200 with a body whose status is ["pending"]. *)
Definition answers_pending (r : Response) : bool :=
  (status_code r =? 200) &&
  match json r with
  | Return v =>
      match getitem v "status" with
      | Return status => eq_str status "pending"
      | Raise _ => false
      end
  | Raise _ => false
  end.

(** The answer is 200 with a job descriptor whose status is not
    ["pending"]. *)
Definition answers_settled (r : Response) : bool :=
  (status_code r =? 200) &&
  match json r with
  | Return v => job_with_status (fun status => negb (eq_str status "pending")) v
  | Raise _ => false
  end.

(** The entry has a name, and it is [cname]. *)
Definition name_is (cname : string) (conn : Json) : bool :=
  match getitem conn "name" with
  | Return n => eq_str n cname
  | Raise _ => false
  end.

(** The entry has a name, and it is not [cname]. *)
Definition name_differs (cname : string) (conn : Json) : bool :=
  match getitem conn "name" with
  | Return n => negb (eq_str n cname)
  | Raise _ => false
  end.

(** ** Instances to run the functions on concrete inputs *)

(** A bcrypt instance: the salt spells the low 22 bits of the draw's number
    with the characters [.] and [/], and the checksum is a fixed string. *)
Fixpoint bits_string (k : nat) (positions : list nat) : string :=
  match positions with
  | [] => EmptyString
  | j :: rest =>
      String (if Nat.testbit k j then "/" else ".")%char (bits_string k rest)
  end.

Fixpoint bits_string_length (k : nat) (positions : list nat) :
    String.length (bits_string k positions) = List.length positions :=
  match positions with
  | [] => eq_refl
  | j :: rest => f_equal S (bits_string_length k rest)
  end.

Definition counter_salt (k : nat) : string := bits_string k (seq 0 22).

Definition counter_lib : Bcrypt :=
  {| salt22 := counter_salt;
     salt22_length := fun k => bits_string_length k (seq 0 22);
     checksum := fun _ _ => "0123456789012345678901234567890" |}.

(** [str] on the scalar values; the inputs below print scalars only. *)
Definition str_scalar (v : Json) : string :=
  match v with
  | JNull => "None"
  | JBool true => "True"
  | JBool false => "False"
  | JNum n => str_int n
  | JStr s => s
  | JArr _ => "[...]"
  | JObj _ => "{...}"
  end.

Definition one_file : string -> option string :=
  fun path => if String.eqb path "imfake_users.json" then Some "[]" else None.

Definition job_body (id status : string) (inserted : Z) : Json :=
  JObj [("id", JStr id); ("status", JStr status); ("summary", JNum inserted)].

Definition ok_response (body : Json) : Response :=
  {| status_code := 200; text := "(json)"; json := Return body |}.

Definition error_response (code : Z) (body : string) : Response :=
  {| status_code := code; text := body; json := Raise JSONDecodeError |}.

Definition connection (id cname : string) : Json :=
  JObj [("id", JStr id); ("name", JStr cname); ("strategy", JStr "auth0")].

(** ** The payload file and the last cell of the notebook *)

(** The file system after [path] has been written with [content]. *)
Definition write_file (disk : string -> option string) (path content : string)
    : string -> option string :=
  fun p => if String.eqb p path then Some content else disk p.

(** How a call of [create_user_file] ends: what it printed, what it
    returned or raised, the files, and the number of salts drawn. *)
Record FileRun : Type := {
  file_trace : list event;
  file_result : result string;
  file_disk : string -> option string;
  file_entropy : nat
}.

Section PayloadWriter.

Context (lib : Bcrypt).

(** The text that [json.dump(users, f, indent=4)] writes: a function of
    the list of records, from the [json] package. *)
Variable dumps : list UserRecord -> string.

(** What [open(path, "w")] does: [None] when the file is opened, or the
    error that it raises. *)
Variable open_error : string -> option exn.

(** [create_user_file(prefix, domain, N, password, id)] *)
Definition create_user_file (prefix domain : string) (N : Z)
    (password : option string) (id : option Z)
    (disk : string -> option string) (st : nat) : FileRun :=
  let made :=
    match id with
    | None => create_users lib prefix domain N password st
    | Some i => (x <- create_user lib prefix domain password i ;; ret [x]) st
    end in
  match made with
  | (Raise e, st') =>
      {| file_trace := []; file_result := Raise e;
         file_disk := disk; file_entropy := st' |}
  | (Return users, st') =>
      let filename := prefix ++ "_users.json" in
      match open_error filename with
      | None =>
          {| file_trace :=
               [Printed ("Created " ++ filename ++ " with "
                         ++ str_int (Z.of_nat (List.length users)) ++ " users.")];
             file_result := Return filename;
             file_disk := write_file disk filename (dumps users);
             file_entropy := st' |}
      | Some e =>
          {| file_trace := []; file_result := Raise e;
             file_disk := disk; file_entropy := st' |}
      end
  end.

End PayloadWriter.

(** The last cell: [job = start_import_job(filename, connection_id, domain,
    access_token)] and then [check_job_status(job, connection_id, domain,
    access_token)], with the defaults [external_id = None] and [sleep = 5];
    [response] answers the submission and [inbox] the status queries. *)
Definition import_cell (str_json : Json -> string) (disk : string -> option string)
    (filename connection_id domain access_token : string)
    (response : Response) (inbox : list Response) : Client obj :=
  job <~ start_import_job disk filename connection_id domain access_token None response ;;
  check_job_status str_json job connection_id domain access_token 5 inbox.

(** Whether the character [c] occurs in [s]. *)
Fixpoint occurs (c : ascii) (s : string) : bool :=
  match s with
  | EmptyString => false
  | String d rest => Ascii.eqb d c || occurs c rest
  end.

(** An instance of [json.dump] for runs: the usernames, one per line. *)
Definition dump_usernames (users : list UserRecord) : string :=
  String.concat (String "010" EmptyString) (map username users).

Definition anywhere : string -> option exn := fun _ => None.

(** Files can be created at the top level only. *)
Definition top_level_only : string -> option exn :=
  fun path => if occurs "/" path then Some (FileNotFoundError path) else None.


Definition no_disk : string -> option string := fun _ => None.

(** * Properties *)

(** ** Runs on concrete inputs *)

Example create_user_run :
  fst (create_user counter_lib "imfake" "test.edu" None 1 0%nat)
  = Return {| email := "imfake_01@test.edu";
              email_verified := true;
              password_hash := "$2b$10$......................0123456789012345678901234567890";
              name := "imfake_01@test.edu";
              nickname := "imfake_01";
              username := "imfake_01" |}.
Proof. reflexivity. Qed.

Example username_of_run :
  map (username_of "u") [1; 9; 10; 99; 100; 1234; 0; -5]
  = ["u_01"; "u_09"; "u_10"; "u_99"; "u_100"; "u_1234"; "u_00"; "u_-5"].
Proof. reflexivity. Qed.

Example get_connection_id_run :
  get_connection_id "t.auth0.com" "tok" "Username-Password-Authentication"
    (ok_response (JArr [connection "con_1" "google-oauth2";
                        connection "con_2" "Username-Password-Authentication"]))
  = ([Sent {| verb := "GET"; url := "https://t.auth0.com/api/v2/connections";
              headers := [("Authorization", "Bearer tok")];
              params := [("strategy", "auth0")]; files := [] |}],
     Done (Return (JStr "con_2",
                   JArr [connection "con_1" "google-oauth2";
                         connection "con_2" "Username-Password-Authentication"]))).
Proof. reflexivity. Qed.

(** An error body is a dict: its keys are strings, which cannot be indexed
    by ["name"]. *)
Example get_connection_id_error_body :
  snd (get_connection_id "t.auth0.com" "bad" "Username-Password-Authentication"
         {| status_code := 401; text := "(json)";
            json := Return (JObj [("statusCode", JNum 401);
                                  ("error", JStr "Unauthorized")]) |})
  = Done (Raise TypeError).
Proof. reflexivity. Qed.

Example start_import_job_run :
  start_import_job one_file "imfake_users.json" "con_2" "t.auth0.com" "tok" (Some "run-7")
    {| status_code := 202; text := "(json)";
       json := Return (job_body "job_1" "pending" 0) |}
  = ([Sent {| verb := "POST"; url := "https://t.auth0.com/api/v2/jobs/users-imports";
              headers := [("Authorization", "Bearer tok")];
              params := [];
              files := [("users", {| part_filename := Some "imfake_users.json";
                                     part_content := "[]";
                                     part_type := Some "application/json" |});
                        ("connection_id", {| part_filename := None;
                                             part_content := "con_2";
                                             part_type := None |});
                        ("send_completion_email", {| part_filename := None;
                                                     part_content := "false";
                                                     part_type := None |});
                        ("external_id", {| part_filename := None;
                                           part_content := "run-7";
                                           part_type := None |})] |};
      Printed "Import job started successfully."],
     Done (Return (OJson (job_body "job_1" "pending" 0)))).
Proof. reflexivity. Qed.

(** The value returned by a refused submission is a [Response]; given to
    [check_job_status] as the job, it cannot be indexed. *)
Example check_job_status_on_response :
  check_job_status str_scalar (OResponse (error_response 400 "Bad Request")) "con_2"
    "t.auth0.com" "tok" 5 [ok_response (job_body "job_1" "completed" 1)]
  = ([], Done (Raise TypeError)).
Proof. reflexivity. Qed.

Example check_job_status_run :
  check_job_status str_scalar (OJson (job_body "job_1" "pending" 0)) "con_1"
    "t.auth0.com" "tok" 5
    [ok_response (job_body "job_1" "pending" 0);
     ok_response (job_body "job_1" "completed" 1)]
  = (let get := Sent {| verb := "GET"; url := "https://t.auth0.com/api/v2/jobs/job_1";
                        headers := [("Authorization", "Bearer tok")];
                        params := []; files := [] |} in
     [get; Printed "Waiting for job to complete... (5 seconds)"; Slept 5;
      get; Printed "Job id: job_1"; Printed "Job status: completed";
      Printed "Job summary: 1"],
     Done (Return (OJson (job_body "job_1" "completed" 1)))).
Proof. reflexivity. Qed.

(** ** Decimal rendering *)

Lemma parse_int_str_int (i : Z) : parse_int (str_int i) = Some i.
Proof.
  unfold parse_int, str_int.
  rewrite NilZero.isi.
  - simpl. now rewrite DecimalZ.of_to.
  - destruct i; simpl; try discriminate.
    intros [= H]. now apply (DecimalPos.Unsigned.to_uint_nonnil p).
  - destruct i; simpl; try discriminate.
    intros [= H]. now apply (DecimalPos.Unsigned.to_uint_nonnil p).
Qed.

Lemma parse_int_one_char (c : ascii) (v : Z) :
  parse_int (String c EmptyString) = Some v -> 0 <= v <= 9.
Proof.
  destruct c as [[] [] [] [] [] [] [] []]; vm_compute; intros H;
    try discriminate H; injection H as <-; split; discriminate.
Qed.

Lemma str_int_nonempty (i : Z) : (1 <= String.length (str_int i))%nat.
Proof.
  pose proof (parse_int_str_int i) as H.
  destruct (str_int i); [discriminate H | simpl; lia].
Qed.

Lemma str_int_two_chars (i : Z) : 10 <= i -> (2 <= String.length (str_int i))%nat.
Proof.
  intros Hi. pose proof (parse_int_str_int i) as H.
  destruct (str_int i) as [|c [|c' s]]; [discriminate H | | simpl; lia].
  apply parse_int_one_char in H. lia.
Qed.

Lemma zero_pad_wide (width : nat) (s : string) :
  (width <= String.length s)%nat -> zero_pad width s = s.
Proof.
  intros H. unfold zero_pad.
  replace (width - String.length s)%nat with 0%nat by lia. reflexivity.
Qed.

Lemma In_range (lo hi k : Z) : In k (range lo hi) <-> lo <= k < hi.
Proof.
  unfold range. rewrite in_map_iff. split.
  - intros (n & <- & Hn). apply in_seq in Hn. lia.
  - intros H. exists (Z.to_nat (k - lo)). split; [lia | apply in_seq; lia].
Qed.

Lemma range_length (lo hi : Z) : List.length (range lo hi) = Z.to_nat (hi - lo).
Proof. unfold range. now rewrite length_map, length_seq. Qed.

Lemma format_02d_one_digit (i : Z) :
  0 <= i <= 9 -> format_02d i = String "0" (str_int i).
Proof.
  intros H.
  assert (Hall : forallb (fun k => String.eqb (format_02d k) (String "0" (str_int k)))
                         (range 0 10) = true) by (vm_compute; reflexivity).
  rewrite forallb_forall in Hall.
  apply String.eqb_eq, Hall, In_range. lia.
Qed.

Lemma format_02d_wide (i : Z) : i < 0 \/ 10 <= i -> format_02d i = str_int i.
Proof.
  intros [H | H]; unfold format_02d.
  - destruct i as [|p|p]; try lia.
    replace (Zneg p <? 0) with true by (symmetry; apply Z.ltb_lt; lia).
    rewrite zero_pad_wide by apply str_int_nonempty. reflexivity.
  - replace (i <? 0) with false by (symmetry; apply Z.ltb_ge; lia).
    apply zero_pad_wide, str_int_two_chars, H.
Qed.

Lemma format_02d_two_digits (i : Z) :
  0 <= i <= 99 -> String.length (format_02d i) = 2%nat.
Proof.
  intros H.
  assert (Hall : forallb (fun k => Nat.eqb (String.length (format_02d k)) 2)
                         (range 0 100) = true) by (vm_compute; reflexivity).
  rewrite forallb_forall in Hall.
  apply Nat.eqb_eq, Hall, In_range. lia.
Qed.

Lemma parse_int_format_02d (i : Z) : parse_int (format_02d i) = Some i.
Proof.
  destruct (Z_lt_dec i 0) as [Hneg | Hpos].
  - rewrite format_02d_wide by lia. apply parse_int_str_int.
  - destruct (Z_le_dec 10 i) as [Hbig | Hsmall].
    + rewrite format_02d_wide by lia. apply parse_int_str_int.
    + assert (Hall : forallb (fun k => match parse_int (format_02d k) with
                                       | Some v => v =? k
                                       | None => false
                                       end) (range 0 10) = true)
        by (vm_compute; reflexivity).
      rewrite forallb_forall in Hall.
      specialize (Hall i). rewrite In_range in Hall.
      specialize (Hall ltac:(lia)).
      destruct (parse_int (format_02d i)); [|discriminate].
      apply Z.eqb_eq in Hall. now subst.
Qed.

Lemma format_02d_inj (i j : Z) : format_02d i = format_02d j -> i = j.
Proof.
  intros H. pose proof (parse_int_format_02d i) as Hi.
  rewrite H, parse_int_format_02d in Hi. congruence.
Qed.

Lemma append_inv_head (p a b : string) : p ++ a = p ++ b -> a = b.
Proof. induction p; simpl; intros H; [assumption | injection H; auto]. Qed.

Lemma username_of_inj (prefix : string) (i j : Z) :
  username_of prefix i = username_of prefix j -> i = j.
Proof.
  unfold username_of. intros H.
  apply append_inv_head in H. injection H as H. now apply format_02d_inj.
Qed.

(** ** The password hasher and the record generator *)

Lemma hash_password_str (lib : Bcrypt) (w : string) (st : nat) :
  hash_password lib (Some w) st
  = (if hashable w then Return (bcrypt_hash lib w ("$2b$10$" ++ salt22 lib st))
     else Raise ValueError, S st).
Proof.
  unfold hash_password, bind, gensalt, lift, hashpw. simpl.
  destruct (hashable w); reflexivity.
Qed.

Lemma hashable_le (w : string) :
  hashable w = true <-> (String.length w <= 72)%nat.
Proof. unfold hashable. apply Nat.leb_le. Qed.

Lemma append_same_length_inv (a b x y : string) :
  String.length a = String.length b -> a ++ x = b ++ y -> a = b.
Proof.
  revert b. induction a as [|c a IH]; intros [|d b]; simpl; try discriminate.
  - reflexivity.
  - intros [= Hlen] [= -> Happ]. f_equal. now apply IH.
Qed.

Lemma bcrypt_hash_salt_inj (lib : Bcrypt) (w1 w2 : string) (k1 k2 : nat) :
  bcrypt_hash lib w1 ("$2b$10$" ++ salt22 lib k1)
  = bcrypt_hash lib w2 ("$2b$10$" ++ salt22 lib k2) ->
  salt22 lib k1 = salt22 lib k2.
Proof.
  unfold bcrypt_hash. simpl. intros [= H].
  apply append_same_length_inv in H; [assumption |].
  now rewrite !salt22_length.
Qed.

Lemma create_user_eq (lib : Bcrypt) (prefix domain : string)
    (password : option string) (i : Z) (st : nat) :
  create_user lib prefix domain password i st
  = (if hashable (plaintext_for password (username_of prefix i))
     then Return {| email := username_of prefix i ++ "@" ++ domain;
                    email_verified := true;
                    password_hash :=
                      bcrypt_hash lib (plaintext_for password (username_of prefix i))
                        ("$2b$10$" ++ salt22 lib st);
                    name := username_of prefix i ++ "@" ++ domain;
                    nickname := username_of prefix i;
                    username := username_of prefix i |}
     else Raise ValueError, S st).
Proof.
  unfold create_user, bind. rewrite hash_password_str.
  fold (plaintext_for password (username_of prefix i)).
  destruct (hashable (plaintext_for password (username_of prefix i))); reflexivity.
Qed.

(** The plaintexts of all the items are short enough for bcrypt. *)
Lemma hashable_items (password : option string) (prefix : string) (lo hi : Z) :
  (forall k, lo <= k < hi ->
     (String.length (plaintext_for password (username_of prefix k)) <= 72)%nat) ->
  forallb (fun i => hashable (plaintext_for password (username_of prefix i)))
    (range lo hi) = true.
Proof.
  intros H. apply forallb_forall. intros k Hk.
  apply In_range in Hk. apply hashable_le, H, Hk.
Qed.

Lemma list_comp_create_user (lib : Bcrypt) (prefix domain : string)
    (password : option string) (items : list Z) (st : nat) :
  forallb (fun i => hashable (plaintext_for password (username_of prefix i))) items
  = true ->
  exists users,
    list_comp (fun i => create_user lib prefix domain password i) items st
    = (Return users, (st + List.length items)%nat) /\
    List.length users = List.length items /\
    map username users = map (username_of prefix) items /\
    Forall (fun u => email u = username u ++ "@" ++ domain /\ email_verified u = true)
      users /\
    forall k u, nth_error users k = Some u ->
      exists i, nth_error items k = Some i /\
        create_user lib prefix domain password i (st + k)%nat
        = (Return u, S (st + k)).
Proof.
  revert st. induction items as [|i rest IH]; intros st Hall.
  - exists []. simpl. unfold ret. rewrite Nat.add_0_r.
    repeat split; auto. intros [|k] u H; discriminate H.
  - simpl in Hall. apply andb_prop in Hall. destruct Hall as [Hi Hrest].
    pose proof (create_user_eq lib prefix domain password i st) as Hrun.
    rewrite Hi in Hrun.
    destruct (IH (S st) Hrest) as (users & Hrun' & Hlen & Hnames & Hall & Hnth).
    eexists (_ :: users). simpl. unfold bind at 1. rewrite Hrun.
    unfold bind at 1. rewrite Hrun'. unfold ret. simpl.
    repeat split.
    + do 2 f_equal. lia.
    + now rewrite Hlen.
    + now rewrite Hnames.
    + constructor; auto.
    + intros [|k] v Hv; simpl in Hv.
      * injection Hv as <-. exists i. rewrite Nat.add_0_r. auto.
      * destruct (Hnth k v Hv) as (j & Hj & Hcall). exists j. split; [exact Hj |].
        replace (st + S k)%nat with (S st + k)%nat by lia. exact Hcall.
Qed.

Lemma list_comp_create_user_fail (lib : Bcrypt) (prefix domain : string)
    (password : option string) (items : list Z) (st : nat) :
  forallb (fun i => hashable (plaintext_for password (username_of prefix i))) items
  = false ->
  fst (list_comp (fun i => create_user lib prefix domain password i) items st)
  = Raise ValueError.
Proof.
  revert st. induction items as [|i rest IH]; intros st; simpl; [discriminate |].
  unfold bind at 1. rewrite create_user_eq.
  destruct (hashable (plaintext_for password (username_of prefix i))); simpl;
    [|reflexivity].
  intros Hrest. specialize (IH (S st) Hrest). unfold bind.
  destruct (list_comp _ rest (S st)) as [[users|e] st']; simpl in *;
    [discriminate IH | exact IH].
Qed.

Lemma list_comp_create_user_inv (lib : Bcrypt) (prefix domain : string)
    (password : option string) (items : list Z) (st st' : nat)
    (users : list UserRecord) :
  list_comp (fun i => create_user lib prefix domain password i) items st
  = (Return users, st') ->
  forallb (fun i => hashable (plaintext_for password (username_of prefix i))) items
  = true.
Proof.
  intros Hrun.
  destruct (forallb _ items) eqn:Hall; [reflexivity |].
  pose proof (list_comp_create_user_fail lib prefix domain password items st Hall) as H.
  rewrite Hrun in H. discriminate H.
Qed.

Lemma NoDup_map_injective {A B} (f : A -> B) (l : list A) :
  (forall x y, f x = f y -> x = y) -> NoDup l -> NoDup (map f l).
Proof.
  intros Hinj. induction 1 as [|x l Hx Hl IH]; simpl; constructor; auto.
  rewrite in_map_iff. intros (y & Hy & Hin). apply Hinj in Hy. now subst.
Qed.

Lemma NoDup_range (lo hi : Z) : NoDup (range lo hi).
Proof.
  unfold range. apply NoDup_map_injective; [intros; lia | apply seq_NoDup].
Qed.

(** C1, as stated, fails at N = 100: the hundredth username is [u_100], whose
    index has three digits, so the usernames are not all the prefix, an
    underscore and a two-digit index. *)
Lemma create_users_hundredth_index_three_digits :
  exists users,
    fst (create_users counter_lib "u" "example.com" 100 None 0%nat) = Return users /\
    nth_error (map username users) 99 = Some "u_100" /\
    ~ Forall (fun u => exists ix, String.length ix = 2%nat /\
                                  username u = "u" ++ "_" ++ ix) users.
Proof.
  destruct (list_comp_create_user counter_lib "u" "example.com" None (range 1 101) 0%nat)
    as (users & Hrun & _ & Hnames & _); [vm_compute; reflexivity |].
  exists users. unfold create_users.
  change (100 + 1) with 101. rewrite Hrun. split; [reflexivity |].
  assert (Hnth : nth_error (map username users) 99 = Some "u_100")
    by (rewrite Hnames; vm_compute; reflexivity).
  split; [exact Hnth |].
  intros Hall. apply nth_error_In, in_map_iff in Hnth.
  destruct Hnth as (u & Hu & Hin).
  rewrite Forall_forall in Hall.
  destruct (Hall u Hin) as (ix & Hlen & Heq).
  rewrite Hu in Heq.
  destruct ix as [|a [|b [|c ix]]]; simpl in Hlen; try discriminate Hlen.
  simpl in Heq. discriminate Heq.
Qed.

(** C1, amended: for every prefix P, domain D and N >= 1 such that every
    plaintext handed to bcrypt (the password given, or else each username)
    has at most 72 bytes, [create_users] returns a list of exactly N records
    whose usernames are, in order, P, an underscore and the index k = 1..N
    in decimal padded with zeros to at least two digits (exactly two digits
    as long as N <= 99), whose email is the username followed by [@] and D,
    and whose [email_verified] is true.  One salt is drawn per record. *)
Theorem create_users_records (lib : Bcrypt) (P D : string) (N : Z)
    (password : option string) (st : nat) :
  1 <= N ->
  (forall k, 1 <= k <= N ->
     (String.length (plaintext_for password (P ++ "_" ++ format_02d k)) <= 72)%nat) ->
  exists users,
    create_users lib P D N password st = (Return users, (st + Z.to_nat N)%nat) /\
    Z.of_nat (List.length users) = N /\
    map username users = map (fun k => P ++ "_" ++ format_02d k) (range 1 (N + 1)) /\
    Forall (fun u => email u = username u ++ "@" ++ D /\ email_verified u = true) users /\
    (N <= 99 ->
     Forall (fun u => exists ix, String.length ix = 2%nat /\ username u = P ++ "_" ++ ix)
       users).
Proof.
  intros HN Hshort.
  destruct (list_comp_create_user lib P D password (range 1 (N + 1)) st)
    as (users & Hrun & Hlen & Hnames & Hall & _).
  { apply hashable_items. intros k Hk. apply Hshort. lia. }
  exists users. unfold create_users. rewrite Hrun, range_length.
  rewrite range_length in Hlen.
  repeat split.
  - do 2 f_equal. lia.
  - lia.
  - exact Hnames.
  - exact Hall.
  - intros H99. apply Forall_forall. intros u Hu.
    assert (Hin : In (username u) (map (username_of P) (range 1 (N + 1))))
      by (rewrite <- Hnames; now apply in_map).
    apply in_map_iff in Hin. destruct Hin as (k & Hk & Hrange).
    apply In_range in Hrange.
    exists (format_02d k). split; [apply format_02d_two_digits; lia | now rewrite <- Hk].
Qed.

Lemma create_users_records_witness :
  exists users,
    create_users counter_lib "imfake" "test.edu" 3 None 0%nat = (Return users, 3%nat) /\
    map username users = ["imfake_01"; "imfake_02"; "imfake_03"].
Proof.
  destruct (create_users_records counter_lib "imfake" "test.edu" 3 None 0%nat)
    as (users & Hrun & _ & Hnames & _); [lia | |].
  - intros k Hk.
    assert (Hall : forallb (fun i => hashable (plaintext_for None ("imfake" ++ "_" ++ format_02d i)))
                     (range 1 4) = true) by (vm_compute; reflexivity).
    rewrite forallb_forall in Hall.
    apply hashable_le, Hall, In_range. lia.
  - exists users. split; [exact Hrun | exact Hnames].
Defined.




(** C7, as stated, fails on the empty string: the hasher returns a hash
    string for it. *)
Lemma hash_password_empty_returns_hash :
  fst (hash_password counter_lib (Some "") 0%nat)
  = Return "$2b$10$......................0123456789012345678901234567890" /\
  ~ (exists e, fst (hash_password counter_lib (Some "") 0%nat) = Raise e).
Proof.
  split; [reflexivity |]. intros (e & H). discriminate H.
Qed.

(** C7, amended: [hash_password] fails with a propagated error, the
    [AttributeError] of [None.encode], when its input is [None]; on the
    empty string it makes no check of its own and returns what bcrypt
    computes for the empty byte string. *)
Theorem hash_password_none_raises_empty_hashes (lib : Bcrypt) (st : nat) :
  hash_password lib None st = (Raise (AttributeError "encode"), S st) /\
  hash_password lib (Some "") st
  = (Return (bcrypt_hash lib "" ("$2b$10$" ++ salt22 lib st)), S st).
Proof. split; reflexivity. Qed.

(** C8: with [password = None], the plaintext handed to the hasher is the
    generated username: the call is the same as one that passes the
    username as the password, and whenever it returns a record, its
    [password_hash] is what [hash_password] returns on the record's
    username at that point, the bcrypt hash of the username under the salt
    drawn.  It returns a record when the username has at most 72 bytes. *)
Theorem create_user_default_password_is_username (lib : Bcrypt)
    (prefix domain : string) (i : Z) (st : nat) :
  create_user lib prefix domain None i st
  = create_user lib prefix domain (Some (prefix ++ "_" ++ format_02d i)) i st /\
  (forall u st',
     create_user lib prefix domain None i st = (Return u, st') ->
     username u = prefix ++ "_" ++ format_02d i /\
     hash_password lib (Some (username u)) st = (Return (password_hash u), st') /\
     password_hash u = bcrypt_hash lib (username u) ("$2b$10$" ++ salt22 lib st)) /\
  ((String.length (prefix ++ "_" ++ format_02d i) <= 72)%nat ->
   exists u, create_user lib prefix domain None i st = (Return u, S st)).
Proof.
  split; [reflexivity |]. split.
  - intros u st'. rewrite create_user_eq. simpl plaintext_for.
    destruct (hashable (username_of prefix i)) eqn:Hok; [|discriminate].
    intros [= <- <-]. simpl. rewrite hash_password_str, Hok. auto.
  - intros Hlen. apply hashable_le in Hlen.
    rewrite create_user_eq. simpl plaintext_for. unfold username_of.
    rewrite Hlen. eexists. reflexivity.
Qed.

Lemma create_user_default_password_is_username_witness :
  exists u,
    create_user counter_lib "imfake" "test.edu" None 1 0%nat = (Return u, 1%nat) /\
    username u = "imfake_01" /\
    hash_password counter_lib (Some "imfake_01") 0%nat = (Return (password_hash u), 1%nat).
Proof.
  destruct (create_user_default_password_is_username counter_lib "imfake" "test.edu"
              1 0%nat) as (_ & Hhash & Hreturns).
  destruct Hreturns as (u & Hu); [simpl; lia |].
  destruct (Hhash u 1%nat Hu) as (Hname & Hcall & _).
  exists u. rewrite Hname in Hcall. repeat split; assumption.
Defined.

(** C9: for every index i >= 100 the username is the prefix, an underscore
    and the full decimal representation of i, which reads back as i (index
    100 gives [prefix_100]), and every record [create_user] returns for i
    carries it; distinct indices give distinct usernames, so the list that
    [create_users] returns for N carries, in order, the usernames of the
    indices 1..N, all different, beyond 99 too; and it does return a list
    when the plaintexts have at most 72 bytes. *)
Theorem username_keeps_all_digits (lib : Bcrypt) (prefix domain : string)
    (password : option string) (i N : Z) (st : nat) :
  100 <= i ->
  username_of prefix i = prefix ++ "_" ++ str_int i /\
  parse_int (str_int i) = Some i /\
  username_of "prefix" 100 = "prefix_100" /\
  (forall u st',
     create_user lib prefix domain password i st = (Return u, st') ->
     username u = prefix ++ "_" ++ str_int i) /\
  (forall j k, username_of prefix j = username_of prefix k -> j = k) /\
  (forall users st',
     create_users lib prefix domain N password st = (Return users, st') ->
     map username users = map (username_of prefix) (range 1 (N + 1)) /\
     List.length users = Z.to_nat N /\
     NoDup (map username users)) /\
  ((forall k, 1 <= k <= N ->
      (String.length (plaintext_for password (username_of prefix k)) <= 72)%nat) ->
   exists users, create_users lib prefix domain N password st
                 = (Return users, (st + Z.to_nat N)%nat)).
Proof.
  intros Hi.
  assert (Hname : username_of prefix i = prefix ++ "_" ++ str_int i)
    by (unfold username_of; now rewrite format_02d_wide by lia).
  split; [exact Hname |].
  split; [apply parse_int_str_int |].
  split; [reflexivity |].
  split; [|split; [|split]].
  - intros u st'. rewrite create_user_eq.
    destruct (hashable _); [|discriminate]. intros [= <- _]. exact Hname.
  - intros j k. apply username_of_inj.
  - intros users st' Hrun. unfold create_users in Hrun.
    pose proof (list_comp_create_user_inv _ _ _ _ _ _ _ _ Hrun) as Hall.
    destruct (list_comp_create_user lib prefix domain password (range 1 (N + 1)) st Hall)
      as (users0 & Hrun0 & Hlen & Hnames & _).
    rewrite Hrun0 in Hrun. injection Hrun as -> _.
    split; [exact Hnames |]. split.
    + rewrite Hlen, range_length. lia.
    + rewrite Hnames.
      apply NoDup_map_injective; [apply username_of_inj | apply NoDup_range].
  - intros Hshort.
    destruct (list_comp_create_user lib prefix domain password (range 1 (N + 1)) st)
      as (users & Hrun & _).
    { apply hashable_items. intros k Hk. apply Hshort. lia. }
    exists users. unfold create_users. rewrite Hrun, range_length.
    do 2 f_equal. lia.
Qed.

Lemma username_keeps_all_digits_witness :
  exists u, create_user counter_lib "user" "example.com" None 100 0%nat = (Return u, 1%nat) /\
            username u = "user_100".
Proof.
  eexists. split; [reflexivity |].
  destruct (username_keeps_all_digits counter_lib "user" "example.com" None 100 150 0%nat)
    as (_ & _ & _ & Hu & _); [lia |].
  exact (Hu _ 1%nat eq_refl).
Defined.

(** ** The remote import client *)

Lemma requests_of_app (a b : list event) :
  requests_of (a ++ b)%list = (requests_of a ++ requests_of b)%list.
Proof. apply flat_map_app. Qed.

Lemma sleeps_of_app (a b : list event) :
  sleeps_of (a ++ b)%list = (sleeps_of a ++ sleeps_of b)%list.
Proof. apply flat_map_app. Qed.

Lemma job_with_status_inv (p : Json -> bool) (v : Json) :
  job_with_status p v = true ->
  exists id status summary,
    getitem v "id" = Return id /\ getitem v "status" = Return status /\
    getitem v "summary" = Return summary /\ p status = true.
Proof.
  unfold job_with_status, has_key. intros H.
  destruct (getitem v "id") as [id|]; [|discriminate H].
  destruct (getitem v "summary") as [summary|]; [|discriminate H].
  destruct (getitem v "status") as [status|]; [|discriminate H].
  exists id, status, summary. auto.
Qed.

Section PollFacts.

Variable str_json : Json -> string.
Variables (target : string) (auth : list (string * string)).

(** While the answers are pending the loop sends one request per answer
    and sleeps once after each of them. *)
Lemma poll_pending (waiting tail : list Response) :
  forallb answers_pending waiting = true ->
  exists evs,
    poll str_json target auth (waiting ++ tail)%list
    = ((evs ++ fst (poll str_json target auth tail))%list,
       snd (poll str_json target auth tail)) /\
    List.length (requests_of evs) = List.length waiting /\
    sleeps_of evs = repeat 5 (List.length waiting).
Proof.
  induction waiting as [|r waiting IH]; intros Hall.
  - exists []. simpl. now destruct (poll str_json target auth tail).
  - simpl in Hall. apply andb_prop in Hall. destruct Hall as [Hr Hall].
    destruct (IH Hall) as (evs & Hrun & Hreq & Hsleep).
    unfold answers_pending in Hr. apply andb_prop in Hr. destruct Hr as [Hcode Hbody].
    destruct (json r) as [v|] eqn:Hjson; [|discriminate Hbody].
    destruct (getitem v "status") as [status|] eqn:Hstatus; [|discriminate Hbody].
    rename Hbody into Hpending.
    exists (Sent {| verb := "GET"; url := target; headers := auth;
                    params := []; files := [] |}
            :: Printed "Waiting for job to complete... (5 seconds)"
            :: Slept 5 :: evs).
    split.
    + simpl. rewrite Hcode, Hjson. simpl. rewrite Hstatus. simpl.
      rewrite Hpending. simpl. rewrite Hrun. simpl. reflexivity.
    + simpl. split; [now rewrite Hreq | now rewrite Hsleep].
Qed.

Lemma poll_settled (r : Response) (rest : list Response) :
  answers_settled r = true ->
  exists v evs,
    json r = Return v /\
    poll str_json target auth (r :: rest) = (evs, Done (Return (OJson v))) /\
    List.length (requests_of evs) = 1%nat /\ sleeps_of evs = [].
Proof.
  unfold answers_settled. intros Hr.
  apply andb_prop in Hr. destruct Hr as [Hcode Hbody].
  destruct (json r) as [v|] eqn:Hjson; [|discriminate Hbody].
  apply job_with_status_inv in Hbody.
  destruct Hbody as (id & status & summary & Hid & Hstatus & Hsummary & Hsettled).
  apply negb_true_iff in Hsettled.
  exists v. eexists. split; [reflexivity |]. split.
  - simpl. rewrite Hcode, Hjson. simpl. rewrite Hstatus. simpl.
    rewrite Hsettled. unfold report. rewrite Hid, Hstatus, Hsummary. simpl.
    reflexivity.
  - simpl. auto.
Qed.

Lemma poll_error (r : Response) (rest : list Response) :
  status_code r <> 200 ->
  poll str_json target auth (r :: rest)
  = ([Sent {| verb := "GET"; url := target; headers := auth;
              params := []; files := [] |};
      Printed "❌ Error during job status check:";
      Printed (str_int (status_code r) ++ " " ++ text r)],
     Done (Return (OResponse r))).
Proof.
  intros Hcode. apply Z.eqb_neq in Hcode. simpl. rewrite Hcode. reflexivity.
Qed.

End PollFacts.

Lemma check_job_status_poll (str_json : Json -> string) (job : obj)
    (connection_id domain access_token : string) (sleep : Z) (id : Json)
    (inbox : list Response) :
  obj_getitem job "id" = Return id ->
  check_job_status str_json job connection_id domain access_token sleep inbox
  = poll str_json ("https://" ++ domain ++ "/api/v2/jobs/" ++ str_json id)
      (bearer access_token) inbox.
Proof.
  intros Hid. unfold check_job_status. rewrite Hid. unfold cbind, liftr.
  now destruct (poll _ _ _ inbox).
Qed.

(** C2: with pending answers first, then an answer [r] (none pending first
    is the case of the first response): if [r] is 200 with a job status
    other than pending, the call returns that job status after one query
    per answer, so after exactly one query when [r] comes first; if [r] is
    not 200, the call stops there and hands back the response, which
    carries the status code and the body, after printing both; and as long
    as every answer is pending, the next query is sent. *)
Theorem check_job_status_polls_until_settled (str_json : Json -> string)
    (job : obj) (connection_id domain access_token : string) (sleep : Z)
    (id : Json) (waiting : list Response) (r : Response) (rest : list Response) :
  obj_getitem job "id" = Return id ->
  forallb answers_pending waiting = true ->
  let run := check_job_status str_json job connection_id domain access_token sleep in
  (answers_settled r = true ->
   exists v, json r = Return v /\
     snd (run (waiting ++ r :: rest)%list) = Done (Return (OJson v)) /\
     List.length (requests_of (fst (run (waiting ++ r :: rest)%list)))
     = S (List.length waiting)) /\
  (status_code r <> 200 ->
   snd (run (waiting ++ r :: rest)%list) = Done (Return (OResponse r)) /\
   List.length (requests_of (fst (run (waiting ++ r :: rest)%list)))
   = S (List.length waiting) /\
   In (Printed (str_int (status_code r) ++ " " ++ text r))
      (fst (run (waiting ++ r :: rest)%list))) /\
  (snd (run waiting) = Awaiting /\
   List.length (requests_of (fst (run waiting))) = S (List.length waiting)).
Proof.
  intros Hid Hwaiting run. subst run.
  pose proof (fun inbox => check_job_status_poll str_json job connection_id domain
                             access_token sleep id inbox Hid) as Hpoll.
  set (target := "https://" ++ domain ++ "/api/v2/jobs/" ++ str_json id) in Hpoll.
  repeat split.
  - intros Hr. rewrite !Hpoll.
    destruct (poll_pending str_json target (bearer access_token) waiting (r :: rest) Hwaiting)
      as (evs & Hrun & Hreq & _).
    destruct (poll_settled str_json target (bearer access_token) r rest Hr)
      as (v & evs' & Hjson & Hlast & Hone & _).
    exists v. rewrite Hrun, Hlast. simpl.
    repeat split; [exact Hjson |].
    rewrite requests_of_app, length_app, Hreq, Hone. lia.
  - rewrite Hpoll.
    destruct (poll_pending str_json target (bearer access_token) waiting (r :: rest) Hwaiting)
      as (evs & Hrun & _).
    rewrite Hrun, poll_error by assumption. reflexivity.
  - rewrite Hpoll.
    destruct (poll_pending str_json target (bearer access_token) waiting (r :: rest) Hwaiting)
      as (evs & Hrun & Hreq & _).
    rewrite Hrun, poll_error by assumption. simpl.
    rewrite requests_of_app, length_app, Hreq. simpl. lia.
  - rewrite Hpoll.
    destruct (poll_pending str_json target (bearer access_token) waiting (r :: rest) Hwaiting)
      as (evs & Hrun & _).
    rewrite Hrun, poll_error by assumption. simpl.
    apply in_or_app. right. simpl. auto.
  - rewrite Hpoll.
    destruct (poll_pending str_json target (bearer access_token) waiting [] Hwaiting)
      as (evs & Hrun & _).
    rewrite app_nil_r in Hrun. rewrite Hrun. reflexivity.
  - rewrite Hpoll.
    destruct (poll_pending str_json target (bearer access_token) waiting [] Hwaiting)
      as (evs & Hrun & Hreq & _).
    rewrite app_nil_r in Hrun. rewrite Hrun. simpl.
    rewrite requests_of_app, length_app, Hreq. simpl. lia.
Qed.

Lemma check_job_status_polls_until_settled_witness :
  let job := OJson (job_body "job_1" "pending" 0) in
  let settled := ok_response (job_body "job_1" "completed" 1) in
  let refused := error_response 401 "Unauthorized" in
  let run := check_job_status str_scalar job "con_1" "t.auth0.com" "tok" 5 in
  (snd (run [settled]) = Done (Return (OJson (job_body "job_1" "completed" 1))) /\
   List.length (requests_of (fst (run [settled]))) = 1%nat) /\
  snd (run [refused; settled]) = Done (Return (OResponse refused)).
Proof.
  intros job settled refused run.
  pose proof (check_job_status_polls_until_settled str_scalar job "con_1"
                "t.auth0.com" "tok" 5 (JStr "job_1") [] settled [] eq_refl eq_refl)
    as (Hsettled & _ & _).
  pose proof (check_job_status_polls_until_settled str_scalar job "con_1"
                "t.auth0.com" "tok" 5 (JStr "job_1") [] refused [settled] eq_refl eq_refl)
    as (_ & Hrefused & _).
  destruct (Hsettled eq_refl) as (v & Hv & Hout & Hcount).
  injection Hv as <-.
  split; [split; [exact Hout | exact Hcount] |].
  apply Hrefused. discriminate.
Defined.

(** C3 fails on the code: the [sleep] argument is never read, every wait
    is of 5 seconds; with [sleep = 1] and one pending answer the call
    sleeps 5. *)
Theorem check_job_status_ignores_sleep :
  (forall str_json job connection_id domain access_token v inbox,
     check_job_status str_json job connection_id domain access_token v inbox
     = check_job_status str_json job connection_id domain access_token 5 inbox) /\
  sleeps_of
    (fst (check_job_status str_scalar (OJson (job_body "job_1" "pending" 0)) "con_1"
            "t.auth0.com" "tok" 1
            [ok_response (job_body "job_1" "pending" 0);
             ok_response (job_body "job_1" "completed" 1)]))
  = [5].
Proof. split; reflexivity. Qed.

(** C4: when the file can be read, one request is sent; on status 200 or
    202 the call returns the job descriptor parsed from the body; on any
    other status it prints the status code and the body and hands back the
    response itself, which carries both, and no job descriptor. *)
Theorem start_import_job_outcome (disk : string -> option string)
    (filename connection_id domain access_token : string)
    (external_id : option string) (response : Response) (content : string) :
  disk filename = Some content ->
  let out := start_import_job disk filename connection_id domain access_token
               external_id response in
  List.length (requests_of (fst out)) = 1%nat /\
  (status_code response = 200 \/ status_code response = 202 ->
   forall job, json response = Return job -> snd out = Done (Return (OJson job))) /\
  (status_code response <> 200 -> status_code response <> 202 ->
   snd out = Done (Return (OResponse response)) /\
   In (Printed (str_int (status_code response) ++ " " ++ text response)) (fst out) /\
   forall job, snd out <> Done (Return (OJson job))).
Proof.
  intros Hfile out. subst out. unfold start_import_job. rewrite Hfile.
  destruct ((status_code response =? 200) || (status_code response =? 202)) eqn:Hcode.
  - split; [simpl; now destruct (json response) |].
    split.
    + intros _ job Hjob. simpl. now rewrite Hjob.
    + intros H200 H202. apply orb_prop in Hcode.
      destruct Hcode as [H | H]; apply Z.eqb_eq in H; contradiction.
  - split; [reflexivity |]. split.
    + intros H. apply orb_false_elim in Hcode. destruct Hcode as [H200 H202].
      apply Z.eqb_neq in H200, H202. destruct H; contradiction.
    + intros _ _. simpl. repeat split; [auto | discriminate].
Qed.

Lemma start_import_job_outcome_witness :
  snd (start_import_job one_file "imfake_users.json" "con_1" "t.auth0.com" "tok" None
         (ok_response (job_body "job_1" "pending" 0)))
  = Done (Return (OJson (job_body "job_1" "pending" 0))) /\
  snd (start_import_job one_file "imfake_users.json" "con_1" "t.auth0.com" "tok" None
         (error_response 400 "Bad Request"))
  = Done (Return (OResponse (error_response 400 "Bad Request"))).
Proof.
  split.
  - refine (proj1 (proj2 (start_import_job_outcome one_file "imfake_users.json" "con_1"
              "t.auth0.com" "tok" None (ok_response (job_body "job_1" "pending" 0))
              "[]" eq_refl)) _ _ eq_refl).
    left. reflexivity.
  - refine (proj1 (proj2 (proj2 (start_import_job_outcome one_file "imfake_users.json"
              "con_1" "t.auth0.com" "tok" None (error_response 400 "Bad Request")
              "[]" eq_refl)) _ _)); discriminate.
Defined.

Lemma next_match_skip (cname : string) (before tail : list Json) :
  forallb (name_differs cname) before = true ->
  next_match (before ++ tail)%list cname = next_match tail cname.
Proof.
  induction before as [|conn before IH]; simpl; intros H; [reflexivity |].
  apply andb_prop in H. destruct H as [Hconn Hrest].
  unfold name_differs in Hconn.
  destruct (getitem conn "name") as [n|]; [|discriminate Hconn].
  apply negb_true_iff in Hconn. rewrite Hconn. now apply IH.
Qed.

Lemma next_match_found (cname : string) (items : list Json) (cid : Json) :
  next_match items cname = Return cid ->
  exists before conn after,
    items = (before ++ conn :: after)%list /\
    forallb (name_differs cname) before = true /\
    name_is cname conn = true /\
    getitem conn "id" = Return cid.
Proof.
  induction items as [|conn items IH]; simpl; [discriminate |].
  destruct (getitem conn "name") as [n|] eqn:Hname; [|discriminate].
  destruct (eq_str n cname) eqn:Heq.
  - intros Hid. exists [], conn, items. unfold name_is. rewrite Hname. auto.
  - intros Hrest. destruct (IH Hrest) as (before & c & after & -> & Hb & Hc & Hid).
    exists (conn :: before), c, after. simpl. unfold name_differs at 1.
    rewrite Hname, Heq. auto.
Qed.

(** Only a list can be searched with success: the keys of a dict and the
    characters of a string are strings, which have no ["name"]. *)
Lemma iter_next_match_list (v : Json) (items : list Json) (cname : string) (cid : Json) :
  iter v = Return items -> next_match items cname = Return cid -> v = JArr items.
Proof.
  destruct v as [| b | n | s | l | fields]; simpl; try discriminate.
  - intros [= <-]. destruct s; simpl; discriminate.
  - now intros [= <-].
  - intros [= <-]. destruct fields; simpl; discriminate.
Qed.

Lemma get_connection_id_list (domain access_token cname : string)
    (response : Response) (items : list Json) :
  json response = Return (JArr items) ->
  snd (get_connection_id domain access_token cname response)
  = match next_match items cname with
    | Return cid => Done (Return (cid, JArr items))
    | Raise e => Done (Raise e)
    end.
Proof.
  intros Hjson. unfold get_connection_id. simpl. rewrite Hjson. simpl.
  destruct (next_match items cname); reflexivity.
Qed.

(** C5, as stated, fails when no entry matches: the call ends with the
    [StopIteration] of [next], not with an error raised for the purpose. *)
Lemma get_connection_id_no_match_stop_iteration :
  let out := snd (get_connection_id "t.auth0.com" "tok"
                    "Username-Password-Authentication"
                    (ok_response (JArr [connection "con_1" "google-oauth2"]))) in
  out = Done (Raise StopIteration) /\
  ~ (exists cls msg, out = Done (Raise (Raised cls msg))).
Proof.
  split; [reflexivity |]. intros (cls & msg & H). discriminate H.
Qed.

(** C5, amended: on a listing of entries that carry a name,
    [get_connection_id] returns the id of the first entry whose name equals
    the requested name (paired with the listing) when an entry matches, and
    ends with the unhandled [StopIteration] of [next] when none does. *)
Theorem get_connection_id_first_match_or_stop (domain access_token cname : string)
    (response : Response) (items : list Json) :
  json response = Return (JArr items) ->
  let out := snd (get_connection_id domain access_token cname response) in
  (forall before conn after cid,
     items = (before ++ conn :: after)%list ->
     forallb (name_differs cname) before = true ->
     name_is cname conn = true ->
     getitem conn "id" = Return cid ->
     out = Done (Return (cid, JArr items))) /\
  (forallb (name_differs cname) items = true -> out = Done (Raise StopIteration)).
Proof.
  intros Hjson out. subst out. rewrite (get_connection_id_list _ _ _ _ _ Hjson).
  split.
  - intros before conn after cid -> Hbefore Hconn Hid.
    rewrite next_match_skip by assumption. simpl.
    unfold name_is in Hconn.
    destruct (getitem conn "name") as [n|]; [|discriminate Hconn].
    now rewrite Hconn, Hid.
  - intros Hnone.
    rewrite <- (app_nil_r items), next_match_skip by assumption. reflexivity.
Qed.

Lemma get_connection_id_first_match_or_stop_witness :
  let listing := [connection "con_1" "google-oauth2";
                  connection "con_2" "Username-Password-Authentication";
                  connection "con_3" "Username-Password-Authentication"] in
  snd (get_connection_id "t.auth0.com" "tok" "Username-Password-Authentication"
         (ok_response (JArr listing)))
  = Done (Return (JStr "con_2", JArr listing)) /\
  snd (get_connection_id "t.auth0.com" "tok" "github" (ok_response (JArr listing)))
  = Done (Raise StopIteration).
Proof.
  intros listing. split.
  - exact (proj1 (get_connection_id_first_match_or_stop "t.auth0.com" "tok"
                    "Username-Password-Authentication" (ok_response (JArr listing))
                    listing eq_refl)
             [connection "con_1" "google-oauth2"]
             (connection "con_2" "Username-Password-Authentication")
             [connection "con_3" "Username-Password-Authentication"]
             (JStr "con_2") eq_refl eq_refl eq_refl eq_refl).
  - exact (proj2 (get_connection_id_first_match_or_stop "t.auth0.com" "tok" "github"
                    (ok_response (JArr listing)) listing eq_refl) eq_refl).
Defined.

(** C10: every successful call of [get_connection_id] returns a pair: the
    first component is the id of the first entry of the listing whose name
    is the requested one, the second is the whole parsed listing. *)
Theorem get_connection_id_returns_pair (domain access_token cname : string)
    (response : Response) (evs : list event) (cid listing : Json) :
  get_connection_id domain access_token cname response
  = (evs, Done (Return (cid, listing))) ->
  json response = Return listing /\
  exists before conn after,
    listing = JArr (before ++ conn :: after)%list /\
    forallb (name_differs cname) before = true /\
    name_is cname conn = true /\
    getitem conn "id" = Return cid.
Proof.
  unfold get_connection_id. simpl.
  destruct (json response) as [v|] eqn:Hjson; simpl; [|discriminate].
  destruct (iter v) as [items|] eqn:Hiter; simpl; [|discriminate].
  destruct (next_match items cname) as [found|] eqn:Hnext; simpl; [|discriminate].
  intros [= _ <- <-].
  split; [reflexivity |].
  rewrite (iter_next_match_list _ _ _ _ Hiter Hnext).
  destruct (next_match_found _ _ _ Hnext) as (before & conn & after & -> & H).
  now exists before, conn, after.
Qed.

Lemma get_connection_id_returns_pair_witness :
  let listing := JArr [connection "con_1" "google-oauth2";
                       connection "con_2" "Username-Password-Authentication"] in
  json (ok_response listing) = Return listing /\
  exists before conn after,
    listing = JArr (before ++ conn :: after)%list /\
    forallb (name_differs "Username-Password-Authentication") before = true /\
    name_is "Username-Password-Authentication" conn = true /\
    getitem conn "id" = Return (JStr "con_2").
Proof.
  intros listing.
  exact (get_connection_id_returns_pair "t.auth0.com" "tok"
           "Username-Password-Authentication" (ok_response listing)
           [Sent {| verb := "GET"; url := "https://t.auth0.com/api/v2/connections";
                    headers := [("Authorization", "Bearer tok")];
                    params := [("strategy", "auth0")]; files := [] |}]
           (JStr "con_2") listing eq_refl).
Defined.

(** * Further properties of the code *)

(** ** The record generator *)

Example create_user_file_run :
  let run := create_user_file counter_lib dump_usernames anywhere "imfake" "test.edu"
               5 None (Some 1) no_disk 0%nat in
  (file_trace run, file_result run, file_disk run "imfake_users.json", file_entropy run)
  = ([Printed "Created imfake_users.json with 1 users."],
     Return "imfake_users.json", Some "imfake_01", 1%nat).
Proof. reflexivity. Qed.

(** A prefix of 70 bytes makes a username of 73: bcrypt refuses it. *)
Example create_users_long_prefix_run :
  create_users counter_lib
    "pppppppppppppppppppppppppppppppppppppppppppppppppppppppppppppppppppppp"
    "d" 1 None 0%nat
  = (Raise ValueError, 1%nat).
Proof. reflexivity. Qed.

Lemma range_nth (lo hi : Z) (k : nat) (i : Z) :
  nth_error (range lo hi) k = Some i -> i = lo + Z.of_nat k.
Proof.
  unfold range. rewrite nth_error_map.
  destruct (nth_error (seq 0 (Z.to_nat (hi - lo))) k) as [n|] eqn:Hn; [|discriminate].
  intros [= <-].
  assert (Hlt : (k < List.length (seq 0 (Z.to_nat (hi - lo))))%nat)
    by (apply nth_error_Some; rewrite Hn; discriminate).
  rewrite length_seq in Hlt.
  pose proof (nth_error_nth _ _ 0%nat Hn) as Hk.
  rewrite seq_nth in Hk by exact Hlt. simpl in Hk. now subst.
Qed.

Lemma list_comp_app {A B} (f : A -> Gen B) (a b : list A) (st st1 st2 : nat)
    (xs ys : list B) :
  list_comp f a st = (Return xs, st1) ->
  list_comp f b st1 = (Return ys, st2) ->
  list_comp f (a ++ b)%list st = (Return (xs ++ ys)%list, st2).
Proof.
  revert st xs. induction a as [|i a IH]; intros st xs; simpl.
  - unfold ret. intros [= <- <-] Hb. exact Hb.
  - unfold bind, ret. destruct (f i st) as [[x|e] st']; [|discriminate].
    destruct (list_comp f a st') as [[xs'|e] st''] eqn:Ha; [|discriminate].
    intros [= <- <-] Hb.
    rewrite (IH st' xs' Ha Hb). reflexivity.
Qed.

Lemma range_snoc (N : Z) :
  0 <= N -> range 1 (N + 1 + 1) = (range 1 (N + 1) ++ [N + 1])%list.
Proof.
  intros HN. unfold range.
  replace (Z.to_nat (N + 1 + 1 - 1)) with (S (Z.to_nat (N + 1 - 1))) by lia.
  rewrite seq_S, map_app. cbn [map]. do 2 f_equal. lia.
Qed.

(** What a returned list is, record by record. *)
Lemma create_users_returned (lib : Bcrypt) (prefix domain : string) (N : Z)
    (password : option string) (st st' : nat) (users : list UserRecord) :
  create_users lib prefix domain N password st = (Return users, st') ->
  st' = (st + Z.to_nat N)%nat /\
  List.length users = Z.to_nat N /\
  forall k u, nth_error users k = Some u ->
    (k < Z.to_nat N)%nat /\
    create_user lib prefix domain password (Z.of_nat k + 1) (st + k)%nat
    = (Return u, S (st + k)).
Proof.
  unfold create_users. intros Hrun.
  pose proof (list_comp_create_user_inv _ _ _ _ _ _ _ _ Hrun) as Hall.
  destruct (list_comp_create_user lib prefix domain password (range 1 (N + 1)) st Hall)
    as (users0 & Hrun0 & Hlen & _ & _ & Hnth).
  rewrite Hrun0 in Hrun. injection Hrun as -> <-.
  rewrite range_length in *.
  replace (Z.to_nat (N + 1 - 1)) with (Z.to_nat N) in * by lia.
  repeat split; [exact Hlen | |].
  - rewrite <- Hlen. apply nth_error_Some. rewrite H. discriminate.
  - destruct (Hnth k u H) as (i & Hi & Hcall).
    apply range_nth in Hi. subst i.
    replace (Z.of_nat k + 1) with (1 + Z.of_nat k) by lia. exact Hcall.
Qed.

(** X1: with N <= 0 the range is empty: [create_users] returns the empty
    list and draws no salt. *)
Theorem create_users_nonpositive (lib : Bcrypt) (prefix domain : string) (N : Z)
    (password : option string) (st : nat) :
  N <= 0 -> create_users lib prefix domain N password st = (Return [], st).
Proof.
  intros HN. unfold create_users, range.
  replace (Z.to_nat (N + 1 - 1)) with 0%nat by lia. reflexivity.
Qed.

Lemma create_users_nonpositive_witness :
  create_users counter_lib "imfake" "test.edu" (-3) None 7%nat = (Return [], 7%nat).
Proof.
  apply (create_users_nonpositive counter_lib "imfake" "test.edu" (-3) None 7%nat).
  lia.
Defined.

(** X2: when the plaintexts of the indices 1..N+1 have at most 72 bytes,
    the list for N + 1 is the list for N followed by the record of index
    N + 1, made with the salt that follows those of the first N. *)
Theorem create_users_one_more (lib : Bcrypt) (prefix domain : string) (N : Z)
    (password : option string) (st : nat) :
  0 <= N ->
  (forall k, 1 <= k <= N + 1 ->
     (String.length (plaintext_for password (username_of prefix k)) <= 72)%nat) ->
  exists users u,
    create_users lib prefix domain N password st
    = (Return users, (st + Z.to_nat N)%nat) /\
    create_user lib prefix domain password (N + 1) (st + Z.to_nat N)%nat
    = (Return u, S (st + Z.to_nat N)) /\
    create_users lib prefix domain (N + 1) password st
    = (Return (users ++ [u])%list, S (st + Z.to_nat N)).
Proof.
  intros HN Hshort.
  destruct (list_comp_create_user lib prefix domain password (range 1 (N + 1)) st)
    as (users & Hrun & _).
  { apply hashable_items. intros k Hk. apply Hshort. lia. }
  rewrite range_length in Hrun.
  replace (Z.to_nat (N + 1 - 1)) with (Z.to_nat N) in Hrun by lia.
  pose proof (create_user_eq lib prefix domain password (N + 1) (st + Z.to_nat N)%nat)
    as Hu.
  rewrite (proj2 (hashable_le _) (Hshort (N + 1) ltac:(lia))) in Hu.
  do 2 eexists. repeat split; [exact Hrun | exact Hu |].
  unfold create_users. rewrite range_snoc by exact HN.
  eapply list_comp_app; [exact Hrun |].
  simpl. unfold bind, ret. now rewrite Hu.
Qed.

Lemma create_users_one_more_witness :
  exists users u,
    create_users counter_lib "imfake" "test.edu" 2 None 0%nat = (Return users, 2%nat) /\
    create_user counter_lib "imfake" "test.edu" None 3 2%nat = (Return u, 3%nat) /\
    create_users counter_lib "imfake" "test.edu" 3 None 0%nat
    = (Return (users ++ [u])%list, 3%nat).
Proof.
  apply (create_users_one_more counter_lib "imfake" "test.edu" 2 None 0%nat); [lia |].
  intros k Hk.
  assert (Hall : forallb (fun i => hashable (plaintext_for None (username_of "imfake" i)))
                   (range 1 4) = true) by (vm_compute; reflexivity).
  rewrite forallb_forall in Hall.
  apply hashable_le, Hall, In_range. lia.
Defined.

(** X3: the record at position k (from 0) of [create_users] has the index
    k + 1 and the hash of its plaintext (the password given, or else its
    username) under the salt of draw number k of the call; two records whose
    salts differ have different hashes, whatever their plaintexts. *)
Theorem create_users_salts (lib : Bcrypt) (prefix domain : string) (N : Z)
    (password : option string) (st st' : nat) (users : list UserRecord) :
  create_users lib prefix domain N password st = (Return users, st') ->
  (forall k u, nth_error users k = Some u ->
     username u = username_of prefix (Z.of_nat k + 1) /\
     password_hash u
     = bcrypt_hash lib (match password with None => username u | Some p => p end)
         ("$2b$10$" ++ salt22 lib (st + k))) /\
  (forall j k u v,
     nth_error users j = Some u -> nth_error users k = Some v ->
     salt22 lib (st + j) <> salt22 lib (st + k) ->
     password_hash u <> password_hash v).
Proof.
  intros Hrun.
  destruct (create_users_returned _ _ _ _ _ _ _ _ Hrun) as (_ & _ & Hnth).
  assert (Hall : forall k u, nth_error users k = Some u ->
            username u = username_of prefix (Z.of_nat k + 1) /\
            password_hash u
            = bcrypt_hash lib (match password with None => username u | Some p => p end)
                ("$2b$10$" ++ salt22 lib (st + k))).
  { intros k u Hu. destruct (Hnth k u Hu) as (_ & Hcall).
    rewrite create_user_eq in Hcall.
    destruct (hashable _); [|discriminate Hcall].
    injection Hcall as <-. simpl. auto. }
  split; [exact Hall |].
  intros j k u v Hu Hv Hsalt Heq.
  destruct (Hall j u Hu) as [_ Hhu]. destruct (Hall k v Hv) as [_ Hhv].
  rewrite Hhu, Hhv in Heq. apply Hsalt. now apply bcrypt_hash_salt_inj in Heq.
Qed.

Lemma create_users_salts_witness :
  exists users,
    create_users counter_lib "imfake" "test.edu" 2 (Some "secret") 0%nat
    = (Return users, 2%nat) /\
    exists u v, nth_error users 0 = Some u /\ nth_error users 1 = Some v /\
                password_hash u <> password_hash v.
Proof.
  eexists. split; [reflexivity |].
  do 2 eexists. split; [reflexivity |]. split; [reflexivity |].
  refine (proj2 (create_users_salts counter_lib "imfake" "test.edu" 2 (Some "secret")
                   0%nat 2%nat _ eq_refl) 0%nat 1%nat _ _ eq_refl eq_refl _).
  vm_compute. discriminate.
Defined.

(** X4: in every record that [create_users] returns the name is the email,
    the nickname is the username, and the hash is the bcrypt prefix
    [$2b$10$] (cost 10), the 22 characters of the salt of one of the draws
    of the call, and the checksum of the record's plaintext (the password
    given, or else its username) under that salt. *)
Theorem create_users_record_shape (lib : Bcrypt) (prefix domain : string) (N : Z)
    (password : option string) (st st' : nat) (users : list UserRecord) :
  create_users lib prefix domain N password st = (Return users, st') ->
  Forall (fun u =>
            name u = email u /\ nickname u = username u /\
            exists k,
              (st <= k < st')%nat /\
              String.length (salt22 lib k) = 22%nat /\
              password_hash u
              = "$2b$10$" ++ salt22 lib k
                ++ checksum lib (plaintext_for password (username u))
                     ("$2b$10$" ++ salt22 lib k)) users.
Proof.
  intros Hrun.
  destruct (create_users_returned _ _ _ _ _ _ _ _ Hrun) as (-> & _ & Hnth).
  apply Forall_forall. intros u Hu. apply In_nth_error in Hu. destruct Hu as (k & Hk).
  destruct (Hnth k u Hk) as (Hlt & Hcall).
  rewrite create_user_eq in Hcall.
  destruct (hashable _); [|discriminate Hcall].
  injection Hcall as <-. simpl.
  repeat split. exists (st + k)%nat.
  split; [lia |]. split; [apply salt22_length | reflexivity].
Qed.

Lemma create_users_record_shape_witness :
  exists users,
    create_users counter_lib "imfake" "test.edu" 2 None 0%nat = (Return users, 2%nat) /\
    Forall (fun u =>
              name u = email u /\ nickname u = username u /\
              exists k,
                (0 <= k < 2)%nat /\
                String.length (salt22 counter_lib k) = 22%nat /\
                password_hash u
                = "$2b$10$" ++ salt22 counter_lib k
                  ++ checksum counter_lib (plaintext_for None (username u))
                       ("$2b$10$" ++ salt22 counter_lib k)) users.
Proof.
  eexists. split; [reflexivity |].
  exact (create_users_record_shape counter_lib "imfake" "test.edu" 2 None
           0%nat 2%nat _ eq_refl).
Defined.

Lemma occurs_app (c : ascii) (a b : string) :
  occurs c (a ++ b) = occurs c a || occurs c b.
Proof. induction a; simpl; [reflexivity | now rewrite IHa, orb_assoc]. Qed.

Lemma occurs_zeros (n : nat) : occurs "_" (zeros n) = false.
Proof. induction n; simpl; auto. Qed.

Lemma occurs_digits (d : Decimal.uint) :
  occurs "_" (NilEmpty.string_of_uint d) = false.
Proof. induction d; simpl; auto. Qed.

Lemma occurs_str_int (i : Z) : occurs "_" (str_int i) = false.
Proof.
  unfold str_int.
  destruct (Z.to_int i) as [d|d]; simpl;
    destruct d; simpl; auto using occurs_digits.
Qed.

Lemma occurs_format_02d (i : Z) : occurs "_" (format_02d i) = false.
Proof.
  unfold format_02d, zero_pad.
  destruct (i <? 0); simpl; now rewrite occurs_app, occurs_zeros, occurs_str_int.
Qed.

Lemma underscore_split (p1 p2 a b : string) :
  occurs "_" a = false -> occurs "_" b = false ->
  p1 ++ String "_" a = p2 ++ String "_" b -> p1 = p2 /\ a = b.
Proof.
  intros Ha Hb. revert p2.
  induction p1 as [|c p1 IH]; intros [|d p2]; simpl; intros H.
  - injection H as H. auto.
  - injection H as _ H. subst a. rewrite occurs_app in Ha. simpl in Ha.
    rewrite orb_true_r in Ha. discriminate Ha.
  - injection H as _ H. subst b. rewrite occurs_app in Hb. simpl in Hb.
    rewrite orb_true_r in Hb. discriminate Hb.
  - injection H as -> H. destruct (IH p2 H) as [-> ->]. auto.
Qed.

(** X5: the username determines the prefix and the index: the index is
    written without an underscore, so two calls of [create_user] give the
    same username only for the same prefix and the same index. *)
Theorem username_determines_prefix_and_index (lib : Bcrypt)
    (prefix1 domain1 prefix2 domain2 : string) (password1 password2 : option string)
    (i j : Z) (st1 st2 : nat) (u v : UserRecord) :
  fst (create_user lib prefix1 domain1 password1 i st1) = Return u ->
  fst (create_user lib prefix2 domain2 password2 j st2) = Return v ->
  username u = username v ->
  prefix1 = prefix2 /\ i = j.
Proof.
  rewrite !create_user_eq.
  destruct (hashable (plaintext_for password1 _)); [|discriminate].
  destruct (hashable (plaintext_for password2 _)); [|discriminate].
  simpl. intros [= <-] [= <-]. simpl.
  unfold username_of. simpl. intros H.
  apply underscore_split in H; try apply occurs_format_02d.
  destruct H as [-> H]. split; [reflexivity | now apply format_02d_inj].
Qed.

Lemma username_determines_prefix_and_index_witness :
  "imfake" = "imfake" /\ 7 = 7.
Proof.
  exact (username_determines_prefix_and_index counter_lib "imfake" "test.edu"
           "imfake" "example.com" None (Some "secret") 7 7 0%nat 5%nat _ _
           eq_refl eq_refl eq_refl).
Defined.

(** X22: [hash_password] raises the [ValueError] of bcrypt on a password
    of more than 72 bytes, after the salt was drawn, and returns the bcrypt
    string of the password under that salt otherwise. *)
Theorem hash_password_length_limit (lib : Bcrypt) (W : string) (st : nat) :
  ((72 < String.length W)%nat ->
   hash_password lib (Some W) st = (Raise ValueError, S st)) /\
  ((String.length W <= 72)%nat ->
   hash_password lib (Some W) st
   = (Return ("$2b$10$" ++ salt22 lib st
              ++ checksum lib W ("$2b$10$" ++ salt22 lib st)), S st)).
Proof.
  rewrite hash_password_str. split; intros H.
  - replace (hashable W) with false; [reflexivity |].
    symmetry. apply Nat.leb_gt. exact H.
  - apply hashable_le in H. now rewrite H.
Qed.

Lemma hash_password_length_limit_witness :
  hash_password counter_lib
    (Some "0123456789012345678901234567890123456789012345678901234567890123456789012")
    0%nat
  = (Raise ValueError, 1%nat) /\
  fst (hash_password counter_lib (Some "secret") 0%nat)
  = Return "$2b$10$......................0123456789012345678901234567890".
Proof.
  split.
  - apply (proj1 (hash_password_length_limit counter_lib
                    "0123456789012345678901234567890123456789012345678901234567890123456789012"
                    0%nat)).
    simpl. lia.
  - rewrite (proj2 (hash_password_length_limit counter_lib "secret" 0%nat));
      [reflexivity | simpl; lia].
Defined.

(** X23: [create_users] returns a list exactly when every plaintext it
    hashes (the password given, or else the username of each index 1..N)
    has at most 72 bytes; otherwise it raises the [ValueError] of bcrypt
    and no list, not even of the records made before. *)
Theorem create_users_returns_iff (lib : Bcrypt) (prefix domain : string) (N : Z)
    (password : option string) (st : nat) :
  ((forall k, 1 <= k <= N ->
      (String.length (plaintext_for password (username_of prefix k)) <= 72)%nat) ->
   exists users, fst (create_users lib prefix domain N password st) = Return users) /\
  (forall k, 1 <= k <= N ->
     (72 < String.length (plaintext_for password (username_of prefix k)))%nat ->
     fst (create_users lib prefix domain N password st) = Raise ValueError).
Proof.
  unfold create_users. split.
  - intros Hshort.
    destruct (list_comp_create_user lib prefix domain password (range 1 (N + 1)) st)
      as (users & Hrun & _).
    { apply hashable_items. intros k Hk. apply Hshort. lia. }
    exists users. now rewrite Hrun.
  - intros k Hk Hlong. apply list_comp_create_user_fail.
    destruct (forallb _ (range 1 (N + 1))) eqn:Hall; [|reflexivity].
    rewrite forallb_forall in Hall.
    specialize (Hall k). rewrite In_range in Hall.
    specialize (Hall ltac:(lia)). apply hashable_le in Hall. lia.
Qed.

Lemma create_users_returns_iff_witness :
  fst (create_users counter_lib "imfake" "test.edu" 3
         (Some "0123456789012345678901234567890123456789012345678901234567890123456789012")
         0%nat)
  = Raise ValueError.
Proof.
  apply (proj2 (create_users_returns_iff counter_lib "imfake" "test.edu" 3
                  (Some "0123456789012345678901234567890123456789012345678901234567890123456789012")
                  0%nat) 2); [lia | simpl; lia].
Defined.

(** ** The payload file *)

Section PayloadFacts.

Context (lib : Bcrypt).
Variable dumps : list UserRecord -> string.
Variable open_error : string -> option exn.

(** X6: with an [id] whose plaintext has at most 72 bytes, and a file that
    can be opened, [create_user_file] writes the one record of that index,
    whatever N is, draws one salt, prints the count 1 and returns the name
    [{prefix}_users.json]; the other files are left as they were. *)
Theorem create_user_file_single (prefix domain : string) (N i : Z)
    (password : option string) (disk : string -> option string) (st : nat) :
  (String.length (plaintext_for password (username_of prefix i)) <= 72)%nat ->
  open_error (prefix ++ "_users.json") = None ->
  let run := create_user_file lib dumps open_error prefix domain N password (Some i)
               disk st in
  exists u,
    create_user lib prefix domain password i st = (Return u, S st) /\
    file_result run = Return (prefix ++ "_users.json") /\
    file_disk run (prefix ++ "_users.json") = Some (dumps [u]) /\
    (forall path, path <> prefix ++ "_users.json" -> file_disk run path = disk path) /\
    file_entropy run = S st /\
    file_trace run
    = [Printed ("Created " ++ (prefix ++ "_users.json") ++ " with 1 users.")].
Proof.
  intros Hshort Hok run. subst run. unfold create_user_file.
  apply hashable_le in Hshort.
  pose proof (create_user_eq lib prefix domain password i st) as Hu.
  rewrite Hshort in Hu.
  eexists. split; [exact Hu |].
  unfold bind. rewrite Hu. unfold ret. rewrite Hok. simpl.
  unfold write_file. rewrite String.eqb_refl.
  repeat split.
  intros path Hpath. apply String.eqb_neq in Hpath. now rewrite Hpath.
Qed.

(** X7: without an [id], when the plaintexts of the indices 1..N have at
    most 72 bytes and the file can be opened, [create_user_file] writes the
    list that [create_users] makes for N (the empty list when N <= 0),
    prints its length and returns the name [{prefix}_users.json]; the other
    files are left as they were. *)
Theorem create_user_file_all (prefix domain : string) (N : Z)
    (password : option string) (disk : string -> option string) (st : nat) :
  (forall k, 1 <= k <= N ->
     (String.length (plaintext_for password (username_of prefix k)) <= 72)%nat) ->
  open_error (prefix ++ "_users.json") = None ->
  let run := create_user_file lib dumps open_error prefix domain N password None
               disk st in
  exists users,
    create_users lib prefix domain N password st = (Return users, file_entropy run) /\
    List.length users = Z.to_nat N /\
    file_result run = Return (prefix ++ "_users.json") /\
    file_disk run (prefix ++ "_users.json") = Some (dumps users) /\
    (forall path, path <> prefix ++ "_users.json" -> file_disk run path = disk path) /\
    file_trace run
    = [Printed ("Created " ++ (prefix ++ "_users.json") ++ " with "
                ++ str_int (Z.of_nat (List.length users)) ++ " users.")].
Proof.
  intros Hshort Hok run. subst run. unfold create_user_file.
  destruct (list_comp_create_user lib prefix domain password (range 1 (N + 1)) st)
    as (users & Hrun & Hlen & _).
  { apply hashable_items. intros k Hk. apply Hshort. lia. }
  exists users. unfold create_users. rewrite Hrun, Hok. simpl.
  unfold write_file. rewrite String.eqb_refl.
  repeat split.
  - rewrite Hlen, range_length. lia.
  - intros path Hpath. apply String.eqb_neq in Hpath. now rewrite Hpath.
Qed.

(** X8: when the records can be made (plaintexts of at most 72 bytes) and
    [open] raises an error, [create_user_file] raises that error after the
    records were made: the salts are drawn, nothing is printed and no file
    changes. *)
Theorem create_user_file_open_fails (prefix domain : string) (N : Z)
    (password : option string) (id : option Z)
    (disk : string -> option string) (st : nat) (e : exn) :
  (forall k, match id with Some i => k = i | None => 1 <= k <= N end ->
     (String.length (plaintext_for password (username_of prefix k)) <= 72)%nat) ->
  open_error (prefix ++ "_users.json") = Some e ->
  let run := create_user_file lib dumps open_error prefix domain N password id
               disk st in
  file_result run = Raise e /\
  (forall path, file_disk run path = disk path) /\
  file_trace run = [] /\
  file_entropy run
  = (st + match id with Some _ => 1 | None => Z.to_nat N end)%nat.
Proof.
  intros Hshort Hno run. subst run. unfold create_user_file.
  destruct id as [i|].
  - pose proof (create_user_eq lib prefix domain password i st) as Hu.
    rewrite (proj2 (hashable_le _) (Hshort i eq_refl)) in Hu.
    unfold bind. rewrite Hu. unfold ret. rewrite Hno. simpl.
    repeat split. lia.
  - destruct (list_comp_create_user lib prefix domain password (range 1 (N + 1)) st)
      as (users & Hrun & _).
    { apply hashable_items. intros k Hk. apply Hshort. lia. }
    unfold create_users. rewrite Hrun, Hno. simpl. repeat split.
    rewrite range_length. f_equal. lia.
Qed.

(** X24: when a plaintext to hash has more than 72 bytes,
    [create_user_file] raises the [ValueError] of bcrypt before the file is
    opened: nothing is written or printed, even where the file could be
    created. *)
Theorem create_user_file_long_plaintext (prefix domain : string) (N : Z)
    (password : option string) (id : option Z)
    (disk : string -> option string) (st : nat) (k : Z) :
  match id with Some i => k = i | None => 1 <= k <= N end ->
  (72 < String.length (plaintext_for password (username_of prefix k)))%nat ->
  let run := create_user_file lib dumps open_error prefix domain N password id
               disk st in
  file_result run = Raise ValueError /\
  (forall path, file_disk run path = disk path) /\
  file_trace run = [].
Proof.
  intros Hk Hlong run. subst run. unfold create_user_file.
  destruct id as [i|].
  - subst k. unfold bind. rewrite create_user_eq.
    replace (hashable (plaintext_for password (username_of prefix i))) with false
      by (symmetry; apply Nat.leb_gt; exact Hlong).
    simpl. auto.
  - assert (Hfail : fst (create_users lib prefix domain N password st) = Raise ValueError).
    { unfold create_users. apply list_comp_create_user_fail.
      destruct (forallb _ (range 1 (N + 1))) eqn:Hall; [|reflexivity].
      rewrite forallb_forall in Hall.
      specialize (Hall k). rewrite In_range in Hall.
      specialize (Hall ltac:(lia)). apply hashable_le in Hall. lia. }
    destruct (create_users lib prefix domain N password st) as [[users|e] st'];
      simpl in Hfail; [discriminate Hfail |].
    injection Hfail as ->. simpl. auto.
Qed.

End PayloadFacts.

Lemma create_user_file_single_witness :
  let run := create_user_file counter_lib dump_usernames anywhere "imfake" "test.edu"
               50 None (Some 4) no_disk 0%nat in
  file_result run = Return "imfake_users.json" /\
  file_disk run "imfake_users.json" = Some "imfake_04".
Proof.
  intros run.
  destruct (create_user_file_single counter_lib dump_usernames anywhere "imfake"
              "test.edu" 50 4 None no_disk 0%nat)
    as (u & Hu & Hres & Hfile & _); [simpl; lia | reflexivity |].
  rewrite create_user_eq in Hu. injection Hu as <-.
  split; [exact Hres | exact Hfile].
Defined.

Lemma create_user_file_all_witness :
  let run := create_user_file counter_lib dump_usernames anywhere "imfake" "test.edu"
               2 None None no_disk 0%nat in
  exists users,
    List.length users = 2%nat /\
    file_disk run "imfake_users.json" = Some (dump_usernames users).
Proof.
  intros run.
  destruct (create_user_file_all counter_lib dump_usernames anywhere "imfake"
              "test.edu" 2 None no_disk 0%nat)
    as (users & _ & Hlen & _ & Hfile & _); [| reflexivity |].
  - intros k Hk.
    assert (Hall : forallb (fun i => hashable (plaintext_for None (username_of "imfake" i)))
                     (range 1 3) = true) by (vm_compute; reflexivity).
    rewrite forallb_forall in Hall.
    apply hashable_le, Hall, In_range. lia.
  - exists users. split; [exact Hlen | exact Hfile].
Defined.

Lemma create_user_file_open_fails_witness :
  let run := create_user_file counter_lib dump_usernames top_level_only
               "missing/imfake" "test.edu" 3 (Some "secret") None no_disk 0%nat in
  file_result run = Raise (FileNotFoundError "missing/imfake_users.json") /\
  file_entropy run = 3%nat.
Proof.
  intros run.
  destruct (create_user_file_open_fails counter_lib dump_usernames top_level_only
              "missing/imfake" "test.edu" 3 (Some "secret") None no_disk 0%nat
              (FileNotFoundError "missing/imfake_users.json"))
    as (Hres & _ & _ & Hst); [intros k _; simpl; lia | reflexivity |].
  split; [exact Hres | exact Hst].
Defined.

Lemma create_user_file_long_plaintext_witness :
  let run := create_user_file counter_lib dump_usernames anywhere
               "pppppppppppppppppppppppppppppppppppppppppppppppppppppppppppppppppppppp"
               "test.edu" 5 None (Some 1) no_disk 0%nat in
  file_result run = Raise ValueError /\
  file_disk run
    "pppppppppppppppppppppppppppppppppppppppppppppppppppppppppppppppppppppp_users.json"
  = None.
Proof.
  intros run.
  destruct (create_user_file_long_plaintext counter_lib dump_usernames anywhere
              "pppppppppppppppppppppppppppppppppppppppppppppppppppppppppppppppppppppp"
              "test.edu" 5 None (Some 1) no_disk 0%nat 1)
    as (Hres & Hdisk & _); [reflexivity | simpl; lia |].
  split; [exact Hres | apply Hdisk].
Defined.

(** ** The connection lookup *)

(** X9: [get_connection_id] sends exactly one request, the same whatever
    the service answers and however the call ends: a GET of the connections
    of the domain with the parameter [strategy=auth0] and the bearer token;
    it prints nothing and never sleeps. *)
Theorem get_connection_id_one_request (domain access_token cname : string)
    (response : Response) :
  fst (get_connection_id domain access_token cname response)
  = [Sent {| verb := "GET";
             url := "https://" ++ domain ++ "/api/v2/connections";
             headers := [("Authorization", "Bearer " ++ access_token)];
             params := [("strategy", "auth0")];
             files := [] |}].
Proof.
  unfold get_connection_id. simpl.
  destruct (json response) as [v|]; simpl; [|reflexivity].
  destruct (iter v) as [items|]; simpl; [|reflexivity].
  destruct (next_match items cname); reflexivity.
Qed.

(** X10: the status code of the answer is never read.  A body that is a
    JSON object, as an error body is, ends the call with [TypeError] (its
    keys are strings, which have no ["name"]), or with [StopIteration] when
    the object is empty; a body that does not parse ends it with the error
    of the parser. *)
Theorem get_connection_id_object_body (domain access_token cname : string)
    (response : Response) :
  (forall fields, json response = Return (JObj fields) ->
     snd (get_connection_id domain access_token cname response)
     = Done (Raise (match fields with [] => StopIteration | _ => TypeError end))) /\
  (forall e, json response = Raise e ->
     snd (get_connection_id domain access_token cname response) = Done (Raise e)).
Proof.
  split.
  - intros fields Hjson. unfold get_connection_id. simpl. rewrite Hjson. simpl.
    destruct fields as [|[k v] rest]; reflexivity.
  - intros e Hjson. unfold get_connection_id. simpl. now rewrite Hjson.
Qed.

Lemma get_connection_id_object_body_witness :
  snd (get_connection_id "t.auth0.com" "expired" "Username-Password-Authentication"
         {| status_code := 401; text := "(json)";
            json := Return (JObj [("statusCode", JNum 401);
                                  ("error", JStr "Unauthorized")]) |})
  = Done (Raise TypeError) /\
  snd (get_connection_id "t.auth0.com" "tok" "Username-Password-Authentication"
         (error_response 502 "Bad Gateway"))
  = Done (Raise JSONDecodeError).
Proof.
  split.
  - exact (proj1 (get_connection_id_object_body "t.auth0.com" "expired"
                    "Username-Password-Authentication"
                    {| status_code := 401; text := "(json)";
                       json := Return (JObj [("statusCode", JNum 401);
                                             ("error", JStr "Unauthorized")]) |})
             _ eq_refl).
  - exact (proj2 (get_connection_id_object_body "t.auth0.com" "tok"
                    "Username-Password-Authentication"
                    (error_response 502 "Bad Gateway"))
             _ eq_refl).
Defined.

(** X11: the entries are read in order.  An entry without a ["name"] that
    comes before any match ends the call with the error of that lookup,
    even if a later entry matches; a first match without an ["id"] ends it
    with the error of that lookup. *)
Theorem get_connection_id_missing_key (domain access_token cname : string)
    (response : Response) (before after : list Json) (conn : Json) (e : exn) :
  json response = Return (JArr (before ++ conn :: after)%list) ->
  forallb (name_differs cname) before = true ->
  (getitem conn "name" = Raise e ->
   snd (get_connection_id domain access_token cname response) = Done (Raise e)) /\
  (name_is cname conn = true -> getitem conn "id" = Raise e ->
   snd (get_connection_id domain access_token cname response) = Done (Raise e)).
Proof.
  intros Hjson Hbefore.
  rewrite (get_connection_id_list _ _ _ _ _ Hjson), next_match_skip by assumption.
  simpl. split.
  - intros Hname. now rewrite Hname.
  - unfold name_is. intros Hname Hid.
    destruct (getitem conn "name") as [n|]; [|discriminate Hname].
    now rewrite Hname, Hid.
Qed.

Lemma get_connection_id_missing_key_witness :
  snd (get_connection_id "t.auth0.com" "tok" "Username-Password-Authentication"
         (ok_response
            (JArr [connection "con_1" "google-oauth2";
                   JObj [("id", JStr "con_2")];
                   connection "con_3" "Username-Password-Authentication"])))
  = Done (Raise (KeyError "name")) /\
  snd (get_connection_id "t.auth0.com" "tok" "Username-Password-Authentication"
         (ok_response
            (JArr [JObj [("name", JStr "Username-Password-Authentication")]])))
  = Done (Raise (KeyError "id")).
Proof.
  split.
  - exact (proj1 (get_connection_id_missing_key "t.auth0.com" "tok"
                    "Username-Password-Authentication"
                    (ok_response
                       (JArr [connection "con_1" "google-oauth2";
                              JObj [("id", JStr "con_2")];
                              connection "con_3" "Username-Password-Authentication"]))
                    [connection "con_1" "google-oauth2"]
                    [connection "con_3" "Username-Password-Authentication"]
                    (JObj [("id", JStr "con_2")]) (KeyError "name") eq_refl eq_refl)
             eq_refl).
  - exact (proj2 (get_connection_id_missing_key "t.auth0.com" "tok"
                    "Username-Password-Authentication"
                    (ok_response
                       (JArr [JObj [("name",
                                     JStr "Username-Password-Authentication")]]))
                    [] []
                    (JObj [("name", JStr "Username-Password-Authentication")])
                    (KeyError "id") eq_refl eq_refl)
             eq_refl eq_refl).
Defined.

(** ** The submission *)

(** X12: when the file cannot be opened, [start_import_job] raises
    [FileNotFoundError] before anything is sent or printed. *)
Theorem start_import_job_missing_file (disk : string -> option string)
    (filename connection_id domain access_token : string)
    (external_id : option string) (response : Response) :
  disk filename = None ->
  start_import_job disk filename connection_id domain access_token external_id response
  = ([], Done (Raise (FileNotFoundError filename))).
Proof. intros Hfile. unfold start_import_job. now rewrite Hfile. Qed.

Lemma start_import_job_missing_file_witness :
  start_import_job one_file "other_users.json" "con_1" "t.auth0.com" "tok" None
    (ok_response (job_body "job_1" "pending" 0))
  = ([], Done (Raise (FileNotFoundError "other_users.json"))).
Proof.
  apply (start_import_job_missing_file one_file "other_users.json" "con_1"
           "t.auth0.com" "tok" None (ok_response (job_body "job_1" "pending" 0))).
  reflexivity.
Defined.

(** X13: when the file can be opened, the one request sent is the same
    whatever the service answers: a POST to the import endpoint with the
    parts [users] (the file, as [application/json]), [connection_id] and
    [send_completion_email = false], followed by [external_id] only when
    that argument is a non-empty string (an empty one counts as absent). *)
Theorem start_import_job_request (disk : string -> option string)
    (filename connection_id domain access_token : string)
    (external_id : option string) (response : Response) (content : string) :
  disk filename = Some content ->
  requests_of
    (fst (start_import_job disk filename connection_id domain access_token
            external_id response))
  = [{| verb := "POST";
        url := "https://" ++ domain ++ "/api/v2/jobs/users-imports";
        headers := [("Authorization", "Bearer " ++ access_token)];
        params := [];
        files :=
          ([("users", {| part_filename := Some filename; part_content := content;
                         part_type := Some "application/json" |});
            ("connection_id", {| part_filename := None;
                                 part_content := connection_id;
                                 part_type := None |});
            ("send_completion_email", {| part_filename := None;
                                         part_content := "false";
                                         part_type := None |})]
           ++ match external_id with
              | None => []
              | Some ext =>
                  if String.eqb ext "" then []
                  else [("external_id", {| part_filename := None;
                                           part_content := ext;
                                           part_type := None |})]
              end)%list |}].
Proof.
  intros Hfile. unfold start_import_job. rewrite Hfile.
  destruct external_id as [ext|]; [destruct (String.eqb ext "") |];
    destruct ((status_code response =? 200) || (status_code response =? 202));
    simpl; try destruct (json response); reflexivity.
Qed.

Lemma start_import_job_request_witness :
  map (fun r => map fst (files r))
    (requests_of (fst (start_import_job one_file "imfake_users.json" "con_1"
                         "t.auth0.com" "tok" (Some "")
                         (error_response 500 "Internal Server Error"))))
  = [["users"; "connection_id"; "send_completion_email"]].
Proof.
  rewrite (start_import_job_request one_file "imfake_users.json" "con_1" "t.auth0.com"
             "tok" (Some "") (error_response 500 "Internal Server Error") "[]" eq_refl).
  reflexivity.
Defined.

(** X14: an accepted submission (200 or 202) whose body does not parse
    raises the error of the parser after the request was sent: nothing is
    printed and no job descriptor reaches the caller, although the service
    accepted the job. *)
Theorem start_import_job_accepted_unparsed (disk : string -> option string)
    (filename connection_id domain access_token : string)
    (external_id : option string) (response : Response) (content : string) (e : exn) :
  disk filename = Some content ->
  status_code response = 200 \/ status_code response = 202 ->
  json response = Raise e ->
  let out := start_import_job disk filename connection_id domain access_token
               external_id response in
  snd out = Done (Raise e) /\
  exists request, fst out = [Sent request].
Proof.
  intros Hfile Hcode Hjson out. subst out. unfold start_import_job. rewrite Hfile.
  replace ((status_code response =? 200) || (status_code response =? 202)) with true
    by (symmetry; apply orb_true_iff; destruct Hcode as [H | H];
        [left | right]; now apply Z.eqb_eq).
  rewrite Hjson. simpl. split; [reflexivity | eexists; reflexivity].
Qed.

Lemma start_import_job_accepted_unparsed_witness :
  snd (start_import_job one_file "imfake_users.json" "con_1" "t.auth0.com" "tok" None
         {| status_code := 202; text := "Accepted"; json := Raise JSONDecodeError |})
  = Done (Raise JSONDecodeError).
Proof.
  refine (proj1 (start_import_job_accepted_unparsed one_file "imfake_users.json" "con_1"
                   "t.auth0.com" "tok" None
                   {| status_code := 202; text := "Accepted";
                      json := Raise JSONDecodeError |}
                   "[]" JSONDecodeError eq_refl _ eq_refl)).
  right. reflexivity.
Defined.

(** ** The polling loop *)

Section PollSteps.

Variable str_json : Json -> string.
Variables (target : string) (auth : list (string * string)).

Let query : Request :=
  {| verb := "GET"; url := target; headers := auth; params := []; files := [] |}.

Lemma poll_cons_pending (r : Response) (later : list Response) :
  answers_pending r = true ->
  poll str_json target auth (r :: later)
  = (Sent query :: Printed "Waiting for job to complete... (5 seconds)" :: Slept 5
       :: fst (poll str_json target auth later),
     snd (poll str_json target auth later)).
Proof.
  unfold answers_pending. intros Hr.
  apply andb_prop in Hr. destruct Hr as [Hcode Hbody].
  destruct (json r) as [v|] eqn:Hjson; [|discriminate Hbody].
  destruct (getitem v "status") as [status|] eqn:Hstatus; [|discriminate Hbody].
  simpl. rewrite Hcode, Hjson. simpl. rewrite Hstatus. simpl. rewrite Hbody. simpl.
  now destruct (poll str_json target auth later).
Qed.

Lemma poll_cons_other (r : Response) :
  answers_pending r = false ->
  exists evs res,
    (forall later, poll str_json target auth (r :: later) = (Sent query :: evs, Done res)) /\
    requests_of evs = [] /\ sleeps_of evs = [].
Proof.
  unfold answers_pending. intros Hr.
  destruct (status_code r =? 200) eqn:Hcode.
  - destruct (json r) as [v|] eqn:Hjson.
    + destruct (getitem v "status") as [status|] eqn:Hstatus.
      * simpl in Hr.
        destruct (getitem v "id") as [id|] eqn:Hid;
          [destruct (getitem v "summary") as [summary|] eqn:Hsummary |];
          do 2 eexists; (split; [intros later; simpl; rewrite Hcode, Hjson; simpl;
                                 rewrite Hstatus; simpl; rewrite Hr; unfold report;
                                 rewrite Hid; simpl; rewrite ?Hstatus; simpl;
                                 rewrite ?Hsummary; simpl; reflexivity
                                | split; reflexivity]).
      * do 2 eexists. split; [intros later; simpl; rewrite Hcode, Hjson; simpl;
                              rewrite Hstatus; simpl; reflexivity | split; reflexivity].
    + do 2 eexists. split; [intros later; simpl; rewrite Hcode, Hjson; simpl;
                            reflexivity | split; reflexivity].
  - do 2 eexists. split; [intros later; simpl; rewrite Hcode; simpl; reflexivity
                         | split; reflexivity].
Qed.

Lemma poll_awaiting_iff (inbox : list Response) :
  snd (poll str_json target auth inbox) = Awaiting
  <-> forallb answers_pending inbox = true.
Proof.
  induction inbox as [|r later IH]; [simpl; tauto |].
  simpl forallb. destruct (answers_pending r) eqn:Hr.
  - rewrite (poll_cons_pending r later Hr). simpl. exact IH.
  - destruct (poll_cons_other r Hr) as (evs & res & Hrun & _).
    rewrite Hrun. simpl. split; discriminate.
Qed.

Lemma poll_requests (inbox : list Response) :
  exists k, (1 <= k <= S (List.length inbox))%nat /\
            requests_of (fst (poll str_json target auth inbox)) = repeat query k.
Proof.
  induction inbox as [|r later IH].
  - exists 1%nat. simpl. split; [lia | reflexivity].
  - destruct (answers_pending r) eqn:Hr.
    + destruct IH as (k & Hk & Hreq). exists (S k).
      rewrite (poll_cons_pending r later Hr). simpl. rewrite Hreq.
      split; [lia | reflexivity].
    + destruct (poll_cons_other r Hr) as (evs & res & Hrun & Hreq & _).
      exists 1%nat. rewrite Hrun. simpl. rewrite Hreq. split; [lia | reflexivity].
Qed.

Lemma poll_stops (waiting : list Response) (r : Response) :
  forallb answers_pending waiting = true ->
  answers_pending r = false ->
  exists evs res,
    (forall rest, poll str_json target auth (waiting ++ r :: rest)%list = (evs, Done res)) /\
    requests_of evs = repeat query (S (List.length waiting)) /\
    sleeps_of evs = repeat 5 (List.length waiting).
Proof.
  intros Hwaiting Hr.
  destruct (poll_cons_other r Hr) as (evs & res & Hrun & Hreq & Hsleep).
  induction waiting as [|w waiting IH].
  - exists (Sent query :: evs), res. simpl. rewrite Hreq, Hsleep. auto.
  - simpl in Hwaiting. apply andb_prop in Hwaiting. destruct Hwaiting as [Hw Hrest].
    destruct (IH Hrest) as (evs' & res' & Hrun' & Hreq' & Hsleep').
    exists (Sent query :: Printed "Waiting for job to complete... (5 seconds)"
            :: Slept 5 :: evs'), res'.
    split; [|split].
    + intros rest. simpl app. rewrite (poll_cons_pending w _ Hw), Hrun'. reflexivity.
    + simpl. now rewrite Hreq'.
    + simpl. now rewrite Hsleep'.
Qed.

End PollSteps.

(** X15: given a job with an id, the call is left waiting for an answer
    exactly when every answer of the script is a pending one; any other
    answer ends it. *)
Theorem check_job_status_awaiting_iff (str_json : Json -> string) (job : obj)
    (connection_id domain access_token : string) (sleep : Z) (id : Json)
    (inbox : list Response) :
  obj_getitem job "id" = Return id ->
  (snd (check_job_status str_json job connection_id domain access_token sleep inbox)
   = Awaiting
   <-> forallb answers_pending inbox = true).
Proof.
  intros Hid. rewrite (check_job_status_poll _ _ _ _ _ _ id _ Hid).
  apply poll_awaiting_iff.
Qed.

Lemma check_job_status_awaiting_iff_witness :
  snd (check_job_status str_scalar (OJson (job_body "job_1" "pending" 0)) "con_1"
         "t.auth0.com" "tok" 5
         [ok_response (job_body "job_1" "pending" 0);
          ok_response (job_body "job_1" "pending" 0)])
  = Awaiting.
Proof.
  apply (check_job_status_awaiting_iff str_scalar (OJson (job_body "job_1" "pending" 0))
           "con_1" "t.auth0.com" "tok" 5 (JStr "job_1")
           [ok_response (job_body "job_1" "pending" 0);
            ok_response (job_body "job_1" "pending" 0)] eq_refl).
  reflexivity.
Defined.

(** X16: the call ends at the first answer that is not a pending one: the
    answers after it are never consulted, one query was sent per answer up
    to it, and one sleep of 5 was made per pending answer before it. *)
Theorem check_job_status_stops_at_first (str_json : Json -> string) (job : obj)
    (connection_id domain access_token : string) (sleep : Z) (id : Json)
    (waiting : list Response) (r : Response) :
  obj_getitem job "id" = Return id ->
  forallb answers_pending waiting = true ->
  answers_pending r = false ->
  exists evs res,
    (forall rest,
       check_job_status str_json job connection_id domain access_token sleep
         (waiting ++ r :: rest)%list
       = (evs, Done res)) /\
    List.length (requests_of evs) = S (List.length waiting) /\
    sleeps_of evs = repeat 5 (List.length waiting).
Proof.
  intros Hid Hwaiting Hr.
  destruct (poll_stops str_json
              ("https://" ++ domain ++ "/api/v2/jobs/" ++ str_json id)
              (bearer access_token) waiting r Hwaiting Hr)
    as (evs & res & Hrun & Hreq & Hsleep).
  exists evs, res. split; [|split].
  - intros rest. rewrite (check_job_status_poll _ _ _ _ _ _ id _ Hid). apply Hrun.
  - rewrite Hreq. apply repeat_length.
  - exact Hsleep.
Qed.

Lemma check_job_status_stops_at_first_witness :
  exists evs res,
    (forall rest,
       check_job_status str_scalar (OJson (job_body "job_1" "pending" 0)) "con_1"
         "t.auth0.com" "tok" 5
         ([ok_response (job_body "job_1" "pending" 0)]
          ++ error_response 503 "Service Unavailable" :: rest)%list
       = (evs, Done res)) /\
    List.length (requests_of evs) = 2%nat /\
    sleeps_of evs = [5].
Proof.
  exact (check_job_status_stops_at_first str_scalar
           (OJson (job_body "job_1" "pending" 0)) "con_1" "t.auth0.com" "tok" 5
           (JStr "job_1") [ok_response (job_body "job_1" "pending" 0)]
           (error_response 503 "Service Unavailable") eq_refl eq_refl eq_refl).
Defined.

(** X17: every request of the call is the same GET of the job whose id is
    that of the [job] argument, with the bearer token (the ids in the
    answers are not used), and there is at most one request per answer of
    the script plus one. *)
Theorem check_job_status_same_request (str_json : Json -> string) (job : obj)
    (connection_id domain access_token : string) (sleep : Z) (id : Json)
    (inbox : list Response) :
  obj_getitem job "id" = Return id ->
  exists k,
    (1 <= k <= S (List.length inbox))%nat /\
    requests_of
      (fst (check_job_status str_json job connection_id domain access_token sleep inbox))
    = repeat {| verb := "GET";
                url := "https://" ++ domain ++ "/api/v2/jobs/" ++ str_json id;
                headers := [("Authorization", "Bearer " ++ access_token)];
                params := []; files := [] |} k.
Proof.
  intros Hid. rewrite (check_job_status_poll _ _ _ _ _ _ id _ Hid).
  apply poll_requests.
Qed.

Lemma check_job_status_same_request_witness :
  exists k,
    (1 <= k <= 3)%nat /\
    requests_of
      (fst (check_job_status str_scalar (OJson (job_body "job_1" "pending" 0)) "con_1"
              "t.auth0.com" "tok" 5
              [ok_response (job_body "job_7" "pending" 0);
               ok_response (job_body "job_7" "completed" 1)]))
    = repeat {| verb := "GET"; url := "https://t.auth0.com/api/v2/jobs/job_1";
                headers := [("Authorization", "Bearer tok")];
                params := []; files := [] |} k.
Proof.
  exact (check_job_status_same_request str_scalar (OJson (job_body "job_1" "pending" 0))
           "con_1" "t.auth0.com" "tok" 5 (JStr "job_1")
           [ok_response (job_body "job_7" "pending" 0);
            ok_response (job_body "job_7" "completed" 1)] eq_refl).
Defined.

Lemma poll_cons_malformed (str_json : Json -> string) (target : string)
    (auth : list (string * string)) (r : Response) :
  status_code r = 200 ->
  answers_pending r = false ->
  answers_settled r = false ->
  exists evs e,
    forall later, poll str_json target auth (r :: later) = (evs, Done (Raise e)).
Proof.
  unfold answers_pending, answers_settled, job_with_status, has_key.
  intros Hcode Hpending Hsettled.
  apply Z.eqb_eq in Hcode. rewrite Hcode in Hpending, Hsettled.
  simpl in Hpending, Hsettled.
  destruct (json r) as [v|] eqn:Hjson;
    [|do 2 eexists; intros later; simpl; rewrite Hcode, Hjson; reflexivity].
  destruct (getitem v "status") as [status|] eqn:Hstatus;
    [|do 2 eexists; intros later; simpl; rewrite Hcode, Hjson; simpl;
      rewrite Hstatus; reflexivity].
  destruct (getitem v "id") as [id|] eqn:Hid;
    [|do 2 eexists; intros later; simpl; rewrite Hcode, Hjson; simpl;
      rewrite Hstatus; simpl; rewrite Hpending; unfold report; rewrite Hid;
      reflexivity].
  destruct (getitem v "summary") as [summary|] eqn:Hsummary;
    [simpl in Hsettled; rewrite Hpending in Hsettled; discriminate Hsettled |].
  do 2 eexists. intros later. simpl. rewrite Hcode, Hjson. simpl.
  rewrite Hstatus. simpl. rewrite Hpending. unfold report.
  rewrite Hid. simpl. rewrite Hstatus. simpl. rewrite Hsummary. reflexivity.
Qed.

(** X18: a 200 answer that is neither pending nor a settled job descriptor
    (its body does not parse, or lacks ["status"], ["id"] or ["summary"])
    ends the call with an exception instead of a result, whatever answers
    would follow. *)
Theorem check_job_status_malformed_answer (str_json : Json -> string) (job : obj)
    (connection_id domain access_token : string) (sleep : Z) (id : Json)
    (waiting : list Response) (r : Response) :
  obj_getitem job "id" = Return id ->
  forallb answers_pending waiting = true ->
  status_code r = 200 ->
  answers_pending r = false ->
  answers_settled r = false ->
  exists e, forall rest,
    snd (check_job_status str_json job connection_id domain access_token sleep
           (waiting ++ r :: rest)%list)
    = Done (Raise e).
Proof.
  intros Hid Hwaiting Hcode Hpending Hsettled.
  destruct (poll_cons_malformed str_json
              ("https://" ++ domain ++ "/api/v2/jobs/" ++ str_json id)
              (bearer access_token) r Hcode Hpending Hsettled) as (evs & e & Hrun).
  exists e. intros rest. rewrite (check_job_status_poll _ _ _ _ _ _ id _ Hid).
  induction waiting as [|w waiting IH]; simpl app.
  - now rewrite Hrun.
  - simpl in Hwaiting. apply andb_prop in Hwaiting. destruct Hwaiting as [Hw Hrest].
    rewrite (poll_cons_pending _ _ _ w _ Hw). simpl. now apply IH.
Qed.

Lemma check_job_status_malformed_answer_witness :
  exists e, forall rest,
    snd (check_job_status str_scalar (OJson (job_body "job_1" "pending" 0)) "con_1"
           "t.auth0.com" "tok" 5
           ([ok_response (job_body "job_1" "pending" 0)]
            ++ ok_response (JObj [("id", JStr "job_1"); ("status", JStr "failed")])
            :: rest)%list)
    = Done (Raise e).
Proof.
  exact (check_job_status_malformed_answer str_scalar
           (OJson (job_body "job_1" "pending" 0)) "con_1" "t.auth0.com" "tok" 5
           (JStr "job_1") [ok_response (job_body "job_1" "pending" 0)]
           (ok_response (JObj [("id", JStr "job_1"); ("status", JStr "failed")]))
           eq_refl eq_refl eq_refl eq_refl eq_refl).
Defined.

(** ** The last cell, and the file handed to the submission *)

(** X19: when the submission is refused (a status other than 200 and
    202), the last cell hands the response object to [check_job_status],
    which fails on [job['id']]: the cell ends with [TypeError] and no status
    query is sent, the submission being its only request. *)
Theorem import_cell_refused (str_json : Json -> string)
    (disk : string -> option string)
    (filename connection_id domain access_token : string)
    (response : Response) (inbox : list Response) (content : string) :
  disk filename = Some content ->
  status_code response <> 200 -> status_code response <> 202 ->
  let out := import_cell str_json disk filename connection_id domain access_token
               response inbox in
  snd out = Done (Raise TypeError) /\
  List.length (requests_of (fst out)) = 1%nat /\
  sleeps_of (fst out) = [].
Proof.
  intros Hfile H200 H202 out. subst out.
  unfold import_cell, start_import_job. rewrite Hfile.
  apply Z.eqb_neq in H200, H202. rewrite H200, H202. simpl. auto.
Qed.

Lemma import_cell_refused_witness :
  snd (import_cell str_scalar one_file "imfake_users.json" "con_1" "t.auth0.com" "tok"
         (error_response 400 "Bad Request")
         [ok_response (job_body "job_1" "completed" 1)])
  = Done (Raise TypeError).
Proof.
  refine (proj1 (import_cell_refused str_scalar one_file "imfake_users.json" "con_1"
                   "t.auth0.com" "tok" (error_response 400 "Bad Request")
                   [ok_response (job_body "job_1" "completed" 1)] "[]" eq_refl _ _));
    discriminate.
Defined.

(** X20: when the submission is accepted with a job descriptor that has an
    id, and the status queries get pending answers and then a settled one,
    the last cell returns that settled job status after the submission and
    one query per answer. *)
Theorem import_cell_completes (str_json : Json -> string)
    (disk : string -> option string)
    (filename connection_id domain access_token : string)
    (response : Response) (content : string) (job id : Json)
    (waiting : list Response) (r : Response) (rest : list Response) :
  disk filename = Some content ->
  status_code response = 200 \/ status_code response = 202 ->
  json response = Return job ->
  getitem job "id" = Return id ->
  forallb answers_pending waiting = true ->
  answers_settled r = true ->
  let out := import_cell str_json disk filename connection_id domain access_token
               response (waiting ++ r :: rest)%list in
  exists v,
    json r = Return v /\
    snd out = Done (Return (OJson v)) /\
    List.length (requests_of (fst out)) = S (S (List.length waiting)).
Proof.
  intros Hfile Hcode Hjob Hid Hwaiting Hr out. subst out.
  set (target := "https://" ++ domain ++ "/api/v2/jobs/" ++ str_json id).
  destruct (poll_pending str_json target (bearer access_token) waiting (r :: rest)
              Hwaiting) as (evs & Hrun & Hreq & _).
  destruct (poll_settled str_json target (bearer access_token) r rest Hr)
    as (v & evs' & Hv & Hlast & Hone & _).
  exists v. split; [exact Hv |].
  unfold import_cell, start_import_job. rewrite Hfile.
  replace ((status_code response =? 200) || (status_code response =? 202)) with true
    by (symmetry; apply orb_true_iff; destruct Hcode as [H | H];
        [left | right]; now apply Z.eqb_eq).
  rewrite Hjob.
  assert (Hcheck : check_job_status str_json (OJson job) connection_id domain
                     access_token 5 (waiting ++ r :: rest)%list
                   = ((evs ++ evs')%list, Done (Return (OJson v)))).
  { rewrite (check_job_status_poll str_json (OJson job) connection_id domain
               access_token 5 id _ Hid).
    fold target. rewrite Hrun, Hlast. reflexivity. }
  simpl. rewrite Hcheck. simpl.
  split; [reflexivity |].
  rewrite requests_of_app, length_app, Hreq, Hone. lia.
Qed.

Lemma import_cell_completes_witness :
  snd (import_cell str_scalar one_file "imfake_users.json" "con_1" "t.auth0.com" "tok"
         {| status_code := 202; text := "(json)";
            json := Return (job_body "job_1" "pending" 0) |}
         ([ok_response (job_body "job_1" "pending" 0)]
          ++ ok_response (job_body "job_1" "completed" 1) :: [])%list)
  = Done (Return (OJson (job_body "job_1" "completed" 1))).
Proof.
  destruct (import_cell_completes str_scalar one_file "imfake_users.json" "con_1"
              "t.auth0.com" "tok"
              {| status_code := 202; text := "(json)";
                 json := Return (job_body "job_1" "pending" 0) |}
              "[]" (job_body "job_1" "pending" 0) (JStr "job_1")
              [ok_response (job_body "job_1" "pending" 0)]
              (ok_response (job_body "job_1" "completed" 1)) []
              eq_refl (or_intror eq_refl) eq_refl eq_refl eq_refl eq_refl)
    as (v & Hv & Hout & _).
  injection Hv as <-. exact Hout.
Defined.

(** X21: the file that [create_user_file] writes is the one it names:
    whenever it returns a name, the file of that name holds the dump of the
    records made, and a submission of that name on the resulting files
    opens it and sends that text as the [users] part, whatever the service
    answers. *)
Theorem create_user_file_then_start_import_job (lib : Bcrypt)
    (dumps : list UserRecord -> string) (open_error : string -> option exn)
    (prefix domain : string) (N : Z) (password : option string) (id : option Z)
    (disk : string -> option string) (st : nat)
    (connection_id api_domain access_token : string) (external_id : option string)
    (response : Response) (filename : string) :
  let run := create_user_file lib dumps open_error prefix domain N password id disk st in
  file_result run = Return filename ->
  exists users request,
    match id with
    | Some i => exists u, create_user lib prefix domain password i st
                          = (Return u, file_entropy run) /\ users = [u]
    | None => create_users lib prefix domain N password st
              = (Return users, file_entropy run)
    end /\
    file_disk run filename = Some (dumps users) /\
    requests_of (fst (start_import_job (file_disk run) filename connection_id
                        api_domain access_token external_id response))
    = [request] /\
    In ("users", {| part_filename := Some filename; part_content := dumps users;
                    part_type := Some "application/json" |}) (files request).
Proof.
  intros run Hres.
  assert (Hwritten : exists users,
             match id with
             | Some i => exists u, create_user lib prefix domain password i st
                                   = (Return u, file_entropy run) /\ users = [u]
             | None => create_users lib prefix domain N password st
                       = (Return users, file_entropy run)
             end /\
             file_disk run filename = Some (dumps users)).
  { subst run. unfold create_user_file in *. destruct id as [i|].
    - unfold bind, ret in *.
      destruct (create_user lib prefix domain password i st) as [[u|e] st'];
        [|discriminate Hres].
      destruct (open_error (prefix ++ "_users.json")); [discriminate Hres |].
      simpl in *. injection Hres as <-.
      unfold write_file. rewrite String.eqb_refl. eauto.
    - destruct (create_users lib prefix domain N password st) as [[users|e] st'];
        [|discriminate Hres].
      destruct (open_error (prefix ++ "_users.json")); [discriminate Hres |].
      simpl in *. injection Hres as <-.
      unfold write_file. rewrite String.eqb_refl. eauto. }
  destruct Hwritten as (users & Hmade & Hfile).
  exists users.
  unfold start_import_job. rewrite Hfile.
  destruct external_id as [ext|]; [destruct (negb (String.eqb ext "")) |];
    destruct ((status_code response =? 200) || (status_code response =? 202));
    simpl; try destruct (json response); simpl;
    eexists; (split; [exact Hmade |]); (split; [reflexivity |]);
    (split; [reflexivity |]); simpl; auto.
Qed.

Lemma create_user_file_then_start_import_job_witness :
  let run := create_user_file counter_lib dump_usernames anywhere "imfake" "test.edu"
               1 None (Some 1) no_disk 0%nat in
  exists users request,
    file_disk run "imfake_users.json" = Some (dump_usernames users) /\
    requests_of (fst (start_import_job (file_disk run) "imfake_users.json" "con_1"
                        "t.auth0.com" "tok" None
                        (ok_response (job_body "job_1" "pending" 0))))
    = [request] /\
    In ("users", {| part_filename := Some "imfake_users.json";
                    part_content := dump_usernames users;
                    part_type := Some "application/json" |}) (files request).
Proof.
  intros run.
  destruct (create_user_file_then_start_import_job counter_lib dump_usernames anywhere
              "imfake" "test.edu" 1 None (Some 1) no_disk 0%nat "con_1" "t.auth0.com"
              "tok" None (ok_response (job_body "job_1" "pending" 0))
              "imfake_users.json" eq_refl)
    as (users & request & _ & Hfile & Hreq & Hin).
  exists users, request. repeat split; assumption.
Defined.
